(** * telegram_webhook_bot: the conversation flow of the payment bot

    A shallow embedding of [telegram_webhook_bot.py].  The handlers are
    written in a small monad that threads the process-wide dictionaries of
    the script, records every call made to the messaging platform and to the
    file system, and lets the environment decide which of these calls raise.
    The theorems at the end of the file are about these handlers. *)

From Stdlib Require Import ZArith String Ascii List Bool Lia.
From stdpp Require Import base decidable option list gmap strings pretty.

Open Scope Z_scope.
Open Scope string_scope.

(* ===================================================================== *)
(** ** Python strings and integers *)
(* ===================================================================== *)

Module Py.

Definition nl : string := String "010"%char "".

(** [str(n)] for an [int]. *)
Definition str (n : Z) : string := pretty n.

(** [s.startswith(p)] *)
Definition startswith (p s : string) : bool := String.prefix p s.

(** [s.endswith(p)] *)
Definition endswith (p s : string) : bool :=
  let n := String.length s in
  let m := String.length p in
  (m <=? n)%nat && String.eqb (String.substring (n - m) m s) p.

(** [s.split(sep)] for a separator of one character: never the empty list. *)
Fixpoint split (sep : ascii) (s : string) : list string :=
  match s with
  | EmptyString => [EmptyString]
  | String c r =>
      if Ascii.eqb c sep then EmptyString :: split sep r
      else match split sep r with
           | h :: t => String c h :: t
           | [] => [String c EmptyString]
           end
  end.

(** Characters that [int()] skips around a number written in ASCII: tab,
    line feed, vertical tab, form feed, carriage return and the blank
    (codes 9 to 13 and 32; the separators 28 to 31 are not skipped). *)
Definition is_space (c : ascii) : bool :=
  let n := nat_of_ascii c in
  ((9 <=? n) && (n <=? 13) || (n =? 32))%nat.

Definition is_digit (c : ascii) : bool :=
  let n := nat_of_ascii c in ((48 <=? n) && (n <=? 57))%nat.

Definition digit_val (c : ascii) : N := N.of_nat (nat_of_ascii c - 48).

Fixpoint all_space (s : string) : bool :=
  match s with
  | EmptyString => true
  | String c r => is_space c && all_space r
  end.

Fixpoint lstrip (s : string) : string :=
  match s with
  | EmptyString => EmptyString
  | String c r => if is_space c then lstrip r else s
  end.

(** The digits of a decimal literal, read left to right: single underscores
    are allowed between digits, white space only at the end; [prev] tells
    whether the previous character was a digit. *)
Fixpoint int_digits (s : string) (acc : N) (prev : bool) : option N :=
  match s with
  | EmptyString => if prev then Some acc else None
  | String c r =>
      if is_digit c then int_digits r (10 * acc + digit_val c)%N true
      else if Ascii.eqb c "_" then
        if prev then int_digits r acc false else None
      else if is_space c then
        if prev && all_space r then Some acc else None
      else None
  end.

(** [int(s)] in base ten for a string of ASCII characters: blanks, a sign,
    the digits, blanks; [None] stands for [ValueError]. *)
Definition int_ascii (s : string) : option Z :=
  match lstrip s with
  | EmptyString => None
  | String c r =>
      if Ascii.eqb c "-" then (fun n => - Z.of_N n) <$> int_digits r 0%N false
      else if Ascii.eqb c "+" then Z.of_N <$> int_digits r 0%N false
      else Z.of_N <$> int_digits (String c r) 0%N false
  end.

(** Every character of a string passes a test. *)
Fixpoint string_forall (P : ascii → bool) (s : string) : bool :=
  match s with
  | EmptyString => true
  | String c r => P c && string_forall P r
  end.

Definition is_ascii (c : ascii) : bool := (nat_of_ascii c <? 128)%nat.

(** The strings on which [int()] is fixed by the language alone: every
    character is ASCII and there are at most 640 of them. *)
Definition plain (s : string) : bool :=
  (String.length s <=? 640)%nat && string_forall is_ascii s.

(** [int(s)] in base ten; [None] stands for [ValueError].  On a plain
    string it is [int_ascii].  On any other string the result is read from
    [other], which stands for what the interpreter in use gives there:
    outside ASCII it accepts the decimal digits and the blanks of its
    Unicode tables (the Arabic-Indic seven is 7), and beyond 640 characters
    its limit on the digits of an integer may refuse the string; neither
    the tables nor the limit are in the repository. *)
Definition int (other : string → option Z) (s : string) : option Z :=
  if plain s then int_ascii s else other s.

Definition not_colon (c : ascii) : bool := negb (Ascii.eqb c ":").

End Py.

Arguments Py.int : simpl never.

(* ===================================================================== *)
(** ** The platform's objects *)
(* ===================================================================== *)

Record user := mk_user {
  user_id : Z;
  first_name : string;
  username : option string
}.

Record photo_size := mk_photo_size {
  file_id : string;
  width : Z;
  height : Z
}.

(** A message of the platform.  [bot_command] is the command that opens the
    text (the name the SDK's [CommandHandler] compares, without the slash),
    [None] when the text does not start with a command entity; [photo] is
    the tuple of sizes of an image message, empty for any other message. *)
Record message := mk_message {
  message_id : Z;
  msg_chat_id : Z;
  msg_text : option string;
  bot_command : option string;
  photo : list photo_size;
  successful_payment : bool
}.

Inductive button :=
| CallbackButton (label callback_data : string)
| UrlButton (label url : string)
| PayButton (label : string).

(** [InlineKeyboardMarkup]: rows of buttons. *)
Definition keyboard := list (list button).

(** What [send_photo] is given: a buffer read from a file, or a file id. *)
Inductive photo_arg :=
| Buffer (path : string)
| FileId (id : string).

(** A value of [users_query]: the script only asks whether it is truthy and
    whether it has an [edit_message_caption] attribute. *)
Record saved_query := mk_saved_query {
  sq_truthy : bool;
  sq_has_edit_message_caption : bool
}.

(** An incoming [Update]: a new message ([update.message]), an edited
    message ([update.edited_message], with [update.message] being [None]),
    a button press or a pre-checkout query.  Posts of channels are not
    modelled. *)
Inductive update :=
| MessageUpdate (u : user) (chat_id : Z) (m : message)
| EditedMessageUpdate (u : user) (chat_id : Z) (m : message)
| CallbackQueryUpdate (u : user) (chat_id : Z) (data : option string)
| PreCheckoutQueryUpdate (u : user) (query_id : string) (total_amount : Z).

(** [update.effective_message] of a message update, which the filters and
    [CommandHandler] look at. *)
Definition effective_message (upd : update) : option message :=
  match upd with
  | MessageUpdate _ _ m => Some m
  | EditedMessageUpdate _ _ m => Some m
  | _ => None
  end.

(* ===================================================================== *)
(** ** Configuration and the dictionaries of the process *)
(* ===================================================================== *)

Record config := mk_config {
  MANAGER_ID : Z;
  PROVIDER_TOKEN : string;
  CHANNEL_INVITE_LINK : string
}.

(** [admin_ids = {MANAGER_ID} if MANAGER_ID != 0 else set()] *)
Definition admin_ids (cfg : config) : gset Z :=
  if bool_decide (MANAGER_ID cfg ≠ 0%Z) then {[ MANAGER_ID cfg ]} else ∅.

(** [ONELINK = CHANNEL_INVITE_LINK or "https://t.me/yourchannel"] *)
Definition ONELINK (cfg : config) : string :=
  if String.eqb (CHANNEL_INVITE_LINK cfg) "" then "https://t.me/yourchannel"
  else CHANNEL_INVITE_LINK cfg.

Record state := mk_state {
  current_inline_message : gmap Z message;
  users_query : gmap Z saved_query;
  users_subs_list : list Z;
  users_waitingcryptocheck : gset Z
}.

Definition initial_state : state :=
  {| current_inline_message := ∅;
     users_query := ∅;
     users_subs_list := [];
     users_waitingcryptocheck := ∅ |}.

(* ===================================================================== *)
(** ** Calls to the outside, exceptions and the environment *)
(* ===================================================================== *)

Inductive exn :=
| FileNotFoundError
| ValueError
| TelegramError
| AttributeError.

Inductive call :=
| aiofiles_read (path : string)
| query_answer (text : option string) (show_alert : bool)
| query_edit_message_caption (caption : string) (reply_markup : option keyboard)
| query_edit_message_text (text : string)
| query_edit_message_media (media : photo_arg) (caption : string)
    (reply_markup : option keyboard)
| saved_query_edit_message_caption (caption : string)
| bot_send_photo (chat_id : Z) (media : photo_arg) (caption : string)
    (reply_markup : option keyboard)
| bot_send_message (chat_id : Z) (text : string) (reply_markup : option keyboard)
| bot_answer_pre_checkout_query (query_id : string) (ok : bool)
    (error_message : option string)
| message_reply_text (text : string)
| message_reply_invoice (to : message) (title description : string)
    (prices : list (string * Z)) (provider_token payload currency : string)
    (reply_markup : option keyboard).

(** What a run leaves behind: the calls, each with the exception it raised
    if any, and the records written to the log. *)
Inductive event :=
| Called (c : call) (raised : option exn)
| LoggedException (text : string)
| LoggedInfo (text : string).

(** The environment decides, from the events so far and the call, whether
    the call raises, and which message a sending call returns.  It also
    holds what the interpreter's [int()] gives on the strings that are not
    plain (see [Py.int]). *)
Record environment := mk_environment {
  env_raises : list event → call → option exn;
  env_sent : list event → call → message;
  env_int : string → option Z
}.

Record world := mk_world {
  w_state : state;
  w_trace : list event
}.

Inductive result (A : Type) :=
| Returned (a : A)
| Raised (e : exn).
Arguments Returned {A} a.
Arguments Raised {A} e.

(** The monad of the handlers. *)
Definition M (A : Type) : Type := environment → world → result A * world.

Definition ret {A} (a : A) : M A := fun _ w => (Returned a, w).

Definition bind {A B} (m : M A) (k : A → M B) : M B :=
  fun env w =>
    match m env w with
    | (Returned a, w') => k a env w'
    | (Raised e, w') => (Raised e, w')
    end.

(** stdpp's notations [x ← m; k] and [m;; k] are read in this monad. *)
#[global] Instance M_ret : MRet M := @ret.
#[global] Instance M_bind : MBind M := fun A B k m => bind m k.

Definition raise {A} (e : exn) : M A := fun _ w => (Raised e, w).

(** [try: body / except <classes>: handler]; [catches] tells the classes. *)
Definition try_except {A} (body : M A) (catches : exn → bool) (handler : M A)
  : M A :=
  fun env w =>
    match body env w with
    | (Returned a, w') => (Returned a, w')
    | (Raised e, w') => if catches e then handler env w' else (Raised e, w')
    end.

(** [except Exception] *)
Definition Exception (e : exn) : bool := true.

(** [except FileNotFoundError] *)
Definition only_FileNotFoundError (e : exn) : bool :=
  match e with FileNotFoundError => true | _ => false end.

Definition get : M state := fun _ w => (Returned (w_state w), w).

Definition modify (f : state → state) : M unit :=
  fun _ w => (Returned tt, {| w_state := f (w_state w); w_trace := w_trace w |}).

Definition do_call (c : call) : M message :=
  fun env w =>
    let o := env_raises env (w_trace w) c in
    let w' := {| w_state := w_state w; w_trace := w_trace w ++ [Called c o] |} in
    match o with
    | None => (Returned (env_sent env (w_trace w) c), w')
    | Some e => (Raised e, w')
    end.

Definition logger_exception (text : string) : M unit :=
  fun _ w => (Returned tt,
    {| w_state := w_state w; w_trace := w_trace w ++ [LoggedException text] |}).

Definition logger_info (text : string) : M unit :=
  fun _ w => (Returned tt,
    {| w_state := w_state w; w_trace := w_trace w ++ [LoggedInfo text] |}).

(** [int(s)] as a step of a handler. *)
Definition py_int (s : string) : M Z :=
  fun env w =>
    match Py.int (env_int env) s with
    | Some n => (Returned n, w)
    | None => (Raised ValueError, w)
    end.

(** Running a handler from a state, with an empty record of events. *)
Definition run {A} (m : M A) (env : environment) (st : state)
  : result A * world :=
  m env {| w_state := st; w_trace := [] |}.

Definition final_state {A} (r : result A * world) : state := w_state (snd r).
Definition trace_of {A} (r : result A * world) : list event := w_trace (snd r).

(* ===================================================================== *)
(** ** Updates of the dictionaries *)
(* ===================================================================== *)

(** [current_inline_message[uid] = m] *)
Definition store_inline_message (uid : Z) (m : message) (st : state) : state :=
  {| current_inline_message := <[uid := m]> (current_inline_message st);
     users_query := users_query st;
     users_subs_list := users_subs_list st;
     users_waitingcryptocheck := users_waitingcryptocheck st |}.

(** [users_subs_list.append(uid)] *)
Definition subs_append (uid : Z) (st : state) : state :=
  {| current_inline_message := current_inline_message st;
     users_query := users_query st;
     users_subs_list := users_subs_list st ++ [uid];
     users_waitingcryptocheck := users_waitingcryptocheck st |}.

(** [users_waitingcryptocheck.add(uid)] *)
Definition waiting_add (uid : Z) (st : state) : state :=
  {| current_inline_message := current_inline_message st;
     users_query := users_query st;
     users_subs_list := users_subs_list st;
     users_waitingcryptocheck := {[ uid ]} ∪ users_waitingcryptocheck st |}.

(** [users_waitingcryptocheck.discard(uid)] *)
Definition waiting_discard (uid : Z) (st : state) : state :=
  {| current_inline_message := current_inline_message st;
     users_query := users_query st;
     users_subs_list := users_subs_list st;
     users_waitingcryptocheck := users_waitingcryptocheck st ∖ {[ uid ]} |}.

(* ===================================================================== *)
(** ** The texts the bot sends *)
(* ===================================================================== *)

Definition text_hello (u : user) : string :=
  "👋, " +:+ first_name u +:+ "!" +:+ Py.nl +:+ Py.nl +:+
  "💗В моем личном канале вы найдете все, о чем всегда мечтали: мои самые горячие фото и видео 18+ 😈💋" +:+ Py.nl +:+
  "После оплаты вы сможете общаться со мной напрямую и получать эксклюзивный контент..." +:+ Py.nl +:+ Py.nl +:+
  "💗On my personal channel, you will find everything you have always dreamed of: my hottest photos and videos 18+" +:+ Py.nl +:+
  "💗Ready?😉".

Definition text_choose_payment : string :=
  "💲Выберите способ оплаты" +:+ Py.nl +:+ Py.nl +:+ "💲Choose a payment method".

Definition text_deposit_address : string :=
  "35 USDT TRC20" +:+ Py.nl +:+ "TThh21cL3Thfv51hV2yeg1B5o9WSi2Vu54".

Definition text_send_receipt : string :=
  "Отправьте чек об оплате сюда👇🧾" +:+ Py.nl +:+ Py.nl +:+
  "Send your payment receipt here👇🧾".

Definition text_welcome : string :=
  "💗Добро пожаловать💗" +:+ Py.nl +:+ Py.nl +:+ "💗Welcome💗".

Definition text_added (target_user_id : string) : string :=
  "Пользователь с id " +:+ target_user_id +:+ " добавлен в список подписчиков".

Definition text_not_added (target_user_id : string) : string :=
  "Пользователь с id " +:+ target_user_id +:+
  " не был добавлен в список подписчиков".

Definition text_dont_trick : string :=
  "Не пытайся меня обмануть 😜" +:+ Py.nl +:+ Py.nl +:+ "Don't try to trick me. 😜".

Definition text_no_rights : string :=
  "Нет прав на выполнение этого действия или неверный формат данных".

Definition text_no_source_message : string :=
  "Не удалось найти исходное сообщение для выставления счёта".

Definition text_use_buttons : string :=
  "Пожалуйста, используйте соответствующие кнопки для отправки чека.".

Definition text_receipt_again : string :=
  "Вы не отправили чек, пожалуйста, отправьте его еще раз😊".

Definition text_waiting_confirmation : string :=
  "Ожидание подтверждения оплаты ⌛️" +:+ Py.nl +:+ Py.nl +:+
  "Waiting for payment confirmation ⌛️".

Definition text_forward_failed : string :=
  "Ошибка при пересылке чека. Попробуйте ещё раз.".

Definition text_wrong_amount : string := "Неверная сумма заказа".

Definition text_wrong_command : string :=
  "Неверная команда." +:+ Py.nl +:+ Py.nl +:+ "Wrong command.".

(** [os.path.join("photos", name)] *)
Definition photos (name : string) : string := "photos/" +:+ name.

(* ===================================================================== *)
(** ** The handlers *)
(* ===================================================================== *)

(** [read_image_bytes]: the file is opened and read; the buffer is known
    here by the path it was read from. *)
Definition read_image_bytes (path : string) : M photo_arg :=
  _ ← do_call (aiofiles_read path);
  mret (Buffer path).

(** [start_handler]; [update_message] is [update.message], which is [None]
    when the update is a button press. *)
Definition start_handler (u : user) (chat_id : Z)
    (update_message : option message) : M unit :=
  match update_message with
  | Some m => modify (store_inline_message (user_id u) m)
  | None => mret tt
  end;;
  let reply_markup :=
    [[CallbackButton "Да, конечно💕 / Yes, of course💕" "siski_gopay"]] in
  try_except
    (photo_buf ← read_image_bytes (photos "photo_hello.JPG");
     _ ← do_call (bot_send_photo chat_id photo_buf (text_hello u)
                    (Some reply_markup));
     mret tt)
    only_FileNotFoundError
    (logger_exception "photo_hello.JPG not found";;
     _ ← do_call (bot_send_message chat_id (text_hello u) (Some reply_markup));
     mret tt).

(** [str(user.id) in map(str, admin_ids)] *)
Definition is_admin (cfg : config) (u : user) : bool :=
  bool_decide (Py.str (user_id u) ∈ Py.str <$> elements (admin_ids cfg)).

(** The two buttons under the deposit address. *)
Definition crypto_keyboard : keyboard :=
  [[CallbackButton "☑" "siski_checkcryptopay"];
   [CallbackButton "🔙" "siski_gopay"]].

(** The branch of [callback_query_handler] for [admin_cryptopay_...];
    [int(target_user_id)] is evaluated each time the script writes it. *)
Definition admin_callback (cfg : config) (u : user) (data : string) : M unit :=
  let parts := Py.split ":" data in
  if (length parts =? 2)%nat && is_admin cfg u then
    let action_part := nth 0 parts "" in
    let target_user_id := nth 1 parts "" in
    if Py.endswith "_YES" action_part then
      n ← py_int target_user_id;
      modify (subs_append n);;
      _ ← do_call (query_edit_message_caption (text_added target_user_id) None);
      let keyboard := [[UrlButton "💌" (ONELINK cfg)]] in
      try_except
        (photo_buf ← read_image_bytes (photos "photo_thanks.JPG");
         chat ← py_int target_user_id;
         _ ← do_call (bot_send_photo chat photo_buf text_welcome (Some keyboard));
         mret tt)
        Exception
        (logger_exception "Не удалось прислать сообщение подписчику")
    else if Py.endswith "_NO" action_part then
      _ ← do_call (query_edit_message_caption (text_not_added target_user_id)
                     None);
      let keyboard := [[CallbackButton "🔁" "siski_gocryptopayagain"]] in
      chat ← py_int target_user_id;
      _ ← do_call (bot_send_message chat text_dont_trick (Some keyboard));
      mret tt
    else mret tt
  else
    _ ← do_call (query_edit_message_text text_no_rights);
    mret tt.

(** The branch for [siski_gostarpay].  [if not user_message] holds exactly
    when no message is stored for the user: a stored message is truthy. *)
Definition gostarpay_callback (cfg : config) (u : user) : M unit :=
  st ← get;
  match current_inline_message st !! user_id u with
  | None =>
      _ ← do_call (query_answer (Some text_no_source_message) true);
      mret tt
  | Some user_message =>
      _ ← do_call (query_edit_message_caption "💕" None);
      let keyboard := [[PayButton "1500 ⭐"]] in
      let prices := [("XTR", 1500)] in
      try_except
        (_ ← do_call (message_reply_invoice user_message "💕💕💕" "🔽🔽🔽"
                        prices (PROVIDER_TOKEN cfg) "siski" "XTR"
                        (Some keyboard));
         mret tt)
        Exception
        (logger_exception
           "Ошибка при создании invoice: проверьте PROVIDER_TOKEN и права бота на платежи")
  end.

(** In [callback_query_handler]: a press of any button but the one that
    confirms the payment takes the user out of [users_waitingcryptocheck]. *)
Definition clear_stale_waiting (u : user) (data : string) : M unit :=
  st ← get;
  if negb (String.eqb data "siski_checkcryptopay")
     && bool_decide (user_id u ∈ users_waitingcryptocheck st)
  then modify (waiting_discard (user_id u))
  else mret tt.

(** In [callback_query_handler]: the chain of tests on [data], each branch
    ending in [return]. *)
Definition route_callback (cfg : config) (u : user) (chat_id : Z)
    (data : string) : M unit :=
  if Py.startswith "admin_cryptopay_" data then admin_callback cfg u data
  else if String.eqb data "start" then start_handler u chat_id None
  else if String.eqb data "siski_gopay" then
    let reply_markup :=
      [[CallbackButton "TG Stars⭐️ (Apple Pay-Google Pay)" "siski_gostarpay"];
       [CallbackButton "(USDT TRC20)💎" "siski_gocryptopay"]] in
    try_except
      (photo_buf ← read_image_bytes (photos "photo_payments.JPG");
       _ ← do_call (query_edit_message_media photo_buf text_choose_payment
                      (Some reply_markup));
       mret tt)
      Exception
      (_ ← do_call (query_edit_message_caption text_choose_payment
                      (Some reply_markup));
       mret tt)
  else if String.eqb data "siski_gocryptopay" then
    _ ← do_call (query_edit_message_caption text_deposit_address
                   (Some crypto_keyboard));
    mret tt
  else if String.eqb data "siski_checkcryptopay" then
    let reply_markup := [[CallbackButton "❌" "siski_gocryptopay"]] in
    _ ← do_call (query_edit_message_caption text_send_receipt
                   (Some reply_markup));
    modify (waiting_add (user_id u))
  else if String.eqb data "siski_gostarpay" then gostarpay_callback cfg u
  else if String.eqb data "siski_gocryptopayagain" then
    try_except
      (photo_buf ← read_image_bytes (photos "photo_payments.JPG");
       sent ← do_call (bot_send_photo (user_id u) photo_buf text_deposit_address
                         (Some crypto_keyboard));
       modify (store_inline_message (user_id u) sent))
      Exception
      (_ ← do_call (bot_send_message (user_id u) text_deposit_address
                      (Some crypto_keyboard));
       mret tt)
  else
    _ ← do_call (query_answer None false);
    mret tt.

(** [callback_query_handler]; [query_data] is [query.data].  The button is
    acknowledged, the message saved for the user is looked up (it is not
    used before the branch of [siski_gostarpay] looks it up again), a stale
    wait for a receipt is dropped, and the press goes to its branch. *)
Definition callback_query_handler (cfg : config) (u : user) (chat_id : Z)
    (query_data : option string) : M unit :=
  let data := default "" query_data in
  _ ← do_call (query_answer None false);
  st ← get;
  let message := current_inline_message st !! user_id u in
  clear_stale_waiting u data;;
  route_callback cfg u chat_id data.

(** [user.username or user.id], as it is printed in an f-string. *)
Definition username_or_id (u : user) : string :=
  match username u with
  | Some s => if String.eqb s "" then Py.str (user_id u) else s
  | None => Py.str (user_id u)
  end.

Definition receipt_caption (u : user) : string :=
  "Чек от пользователя: @" +:+ username_or_id u +:+
  " (id " +:+ Py.str (user_id u) +:+ ")".

(** The controls sent to the manager under a receipt. *)
Definition receipt_keyboard (u : user) : keyboard :=
  [[CallbackButton "Подтвердить оплату"
      ("admin_cryptopay_YES:" +:+ Py.str (user_id u))];
   [CallbackButton "Отклонить оплату"
      ("admin_cryptopay_NO:" +:+ Py.str (user_id u))]].

(** The call that passes a receipt on to the manager. *)
Definition forward_call (cfg : config) (u : user) (ph : photo_size) : call :=
  bot_send_photo (MANAGER_ID cfg) (FileId (file_id ph)) (receipt_caption u)
    (Some (receipt_keyboard u)).

(** [photo_message_handler].  [last (photo m)] is [message.photo[-1]]; it is
    [None] exactly when [not message.photo]. *)
Definition photo_message_handler (cfg : config) (u : user) (m : message)
  : M unit :=
  st ← get;
  if negb (bool_decide (user_id u ∈ users_waitingcryptocheck st)) then
    _ ← do_call (message_reply_text text_use_buttons);
    mret tt
  else
    match last (photo m) with
    | None =>
        _ ← do_call (message_reply_text text_receipt_again);
        mret tt
    | Some ph =>
        try_except
          (_ ← do_call (forward_call cfg u ph);
           _ ← do_call (message_reply_text text_waiting_confirmation);
           logger_info ("Чек от " +:+ Py.str (user_id u) +:+
                        " переслан менеджеру " +:+ Py.str (MANAGER_ID cfg)))
          Exception
          (logger_exception "Ошибка при пересылке чека";;
           _ ← do_call (message_reply_text text_forward_failed);
           mret tt)
    end.

(** [precheckout_handler] *)
Definition precheckout_handler (query_id : string) (total_amount : Z) : M unit :=
  if (total_amount <=? 0)%Z then
    _ ← do_call (bot_answer_pre_checkout_query query_id false
                   (Some text_wrong_amount));
    mret tt
  else
    _ ← do_call (bot_answer_pre_checkout_query query_id true None);
    mret tt.

(** The call that delivers the invitation. *)
Definition reward_call (cfg : config) (chat_id : Z) : call :=
  bot_send_photo chat_id (Buffer (photos "photo_thanks.JPG")) text_welcome
    (Some [[UrlButton "💌" (ONELINK cfg)]]).

(** [successful_payment_handler] *)
Definition successful_payment_handler (cfg : config) (u : user) (chat_id : Z)
  : M unit :=
  try_except
    (photo_buf ← read_image_bytes (photos "photo_thanks.JPG");
     let keyboard := [[UrlButton "💌" (ONELINK cfg)]] in
     _ ← do_call (bot_send_photo chat_id photo_buf text_welcome (Some keyboard));
     st ← get;
     match users_query st !! user_id u with
     | Some saved_query =>
         if sq_truthy saved_query && sq_has_edit_message_caption saved_query
         then try_except
                (_ ← do_call (saved_query_edit_message_caption " "); mret tt)
                Exception
                (mret tt)
         else mret tt
     | None => mret tt
     end;;
     modify (subs_append (user_id u)))
    Exception
    (logger_exception "Ошибка в successful_payment_handler").

(** [fallback_message_handler] *)
Definition fallback_message_handler (chat_id : Z) : M unit :=
  let keyboard := [[CallbackButton "❣" "start"]] in
  _ ← do_call (bot_send_message chat_id text_wrong_command (Some keyboard));
  mret tt.

(* ===================================================================== *)
(** ** Registration of the handlers and dispatch *)
(* ===================================================================== *)

(** [filters.COMMAND]: the text starts with a command. *)
Definition filters_COMMAND (upd : update) : bool :=
  match effective_message upd with
  | Some m => bool_decide (is_Some (bot_command m))
  | None => false
  end.

(** [filters.PHOTO]: the message carries an image. *)
Definition filters_PHOTO (upd : update) : bool :=
  match effective_message upd with
  | Some m => negb (bool_decide (photo m = []))
  | None => false
  end.

(** [filters.SUCCESSFUL_PAYMENT] *)
Definition filters_SUCCESSFUL_PAYMENT (upd : update) : bool :=
  match effective_message upd with
  | Some m => successful_payment m
  | None => false
  end.

(** [filters.ALL]: any message. *)
Definition filters_ALL (upd : update) : bool :=
  match effective_message upd with
  | Some _ => true
  | None => false
  end.

(** A registered handler: the test the SDK applies to an update and the
    callback it then runs. *)
Record handler := mk_handler {
  check_update : update → bool;
  callback : config → update → M unit
}.

Definition CommandHandler (command : string)
    (cb : config → update → M unit) : handler :=
  {| check_update := fun upd =>
       match effective_message upd with
       | Some m => bool_decide (bot_command m = Some command)
       | None => false
       end;
     callback := cb |}.

Definition CallbackQueryHandler (cb : config → update → M unit) : handler :=
  {| check_update := fun upd =>
       match upd with CallbackQueryUpdate _ _ _ => true | _ => false end;
     callback := cb |}.

Definition PreCheckoutQueryHandler (cb : config → update → M unit) : handler :=
  {| check_update := fun upd =>
       match upd with PreCheckoutQueryUpdate _ _ _ => true | _ => false end;
     callback := cb |}.

Definition MessageHandler (filter : update → bool)
    (cb : config → update → M unit) : handler :=
  {| check_update := filter; callback := cb |}.

(** The callbacks, reading from the update what each handler reads:
    [update.effective_user], [update.effective_chat.id] and
    [update.message], which is [None] for an edited message. *)
Definition on_start (cfg : config) (upd : update) : M unit :=
  match upd with
  | MessageUpdate u chat_id m => start_handler u chat_id (Some m)
  | EditedMessageUpdate u chat_id _ => start_handler u chat_id None
  | CallbackQueryUpdate u chat_id _ => start_handler u chat_id None
  | PreCheckoutQueryUpdate _ _ _ => mret tt
  end.

Definition on_callback_query (cfg : config) (upd : update) : M unit :=
  match upd with
  | CallbackQueryUpdate u chat_id data => callback_query_handler cfg u chat_id data
  | _ => mret tt
  end.

Definition on_precheckout (cfg : config) (upd : update) : M unit :=
  match upd with
  | PreCheckoutQueryUpdate _ query_id total_amount =>
      precheckout_handler query_id total_amount
  | _ => mret tt
  end.

Definition on_successful_payment (cfg : config) (upd : update) : M unit :=
  match upd with
  | MessageUpdate u chat_id _ => successful_payment_handler cfg u chat_id
  | EditedMessageUpdate u chat_id _ => successful_payment_handler cfg u chat_id
  | _ => mret tt
  end.

(** For an edited message, [message = update.message] is [None] in
    [photo_message_handler]: its first use, [message.reply_text] for a user
    who does not wait and [message.photo] for one who does, raises
    [AttributeError] before any call is made. *)
Definition on_photo_message (cfg : config) (upd : update) : M unit :=
  match upd with
  | MessageUpdate u _ m => photo_message_handler cfg u m
  | EditedMessageUpdate _ _ _ => raise AttributeError
  | _ => mret tt
  end.

Definition on_fallback (cfg : config) (upd : update) : M unit :=
  match upd with
  | MessageUpdate _ chat_id _ => fallback_message_handler chat_id
  | EditedMessageUpdate _ chat_id _ => fallback_message_handler chat_id
  | _ => mret tt
  end.

(** The handlers in the order of [add_handler]. *)
Definition handlers : list handler :=
  [ CommandHandler "start" on_start;
    CallbackQueryHandler on_callback_query;
    PreCheckoutQueryHandler on_precheckout;
    MessageHandler filters_SUCCESSFUL_PAYMENT on_successful_payment;
    MessageHandler (fun upd => filters_PHOTO upd && negb (filters_COMMAND upd))
      on_photo_message;
    MessageHandler (fun upd => filters_ALL upd && negb (filters_COMMAND upd))
      on_fallback ].

(** [process_update]: the first handler whose test accepts the update runs;
    an update no handler accepts is dropped. *)
Definition process_update (cfg : config) (upd : update) : M unit :=
  match List.find (fun h => check_update h upd) handlers with
  | Some h => callback h cfg upd
  | None => mret tt
  end.

(** One webhook delivery: the exception of a handler, if any, is logged by
    the caller and the dictionaries stay as the handler left them. *)
Definition step (cfg : config) (env : environment) (st : state) (upd : update)
  : state :=
  final_state (run (process_update cfg upd) env st).

(** The states the process can be in: those reached from the empty
    dictionaries by deliveries, each in an environment of its own. *)
Inductive reachable (cfg : config) : state → Prop :=
| reachable_initial : reachable cfg initial_state
| reachable_step st env upd :
    reachable cfg st → reachable cfg (step cfg env st upd).

(* ===================================================================== *)
(** ** Environments and sample data used in the examples *)
(* ===================================================================== *)

Definition no_message : message :=
  {| message_id := 0; msg_chat_id := 0; msg_text := None;
     bot_command := None; photo := []; successful_payment := false |}.

(** Every call returns. *)
Definition env_ok : environment :=
  {| env_raises := fun _ _ => None; env_sent := fun _ _ => no_message;
     env_int := fun _ => None |}.

(** Every call of [query.answer] raises, the other calls return. *)
Definition env_answer_fails : environment :=
  {| env_raises := fun _ c =>
       match c with query_answer _ _ => Some TelegramError | _ => None end;
     env_sent := fun _ _ => no_message;
     env_int := fun _ => None |}.

(** Sending a photo raises, the other calls return. *)
Definition env_send_photo_fails : environment :=
  {| env_raises := fun _ c =>
       match c with
       | bot_send_photo _ _ _ _ => Some TelegramError
       | _ => None
       end;
     env_sent := fun _ _ => no_message;
     env_int := fun _ => None |}.

(** The image files are missing, the other calls return. *)
Definition env_no_files : environment :=
  {| env_raises := fun _ c =>
       match c with aiofiles_read _ => Some FileNotFoundError | _ => None end;
     env_sent := fun _ _ => no_message;
     env_int := fun _ => None |}.

Definition cfg0 : config :=
  {| MANAGER_ID := 878251704; PROVIDER_TOKEN := "";
     CHANNEL_INVITE_LINK := "https://t.me/yourchannel" |}.

Definition manager : user :=
  {| user_id := 878251704; first_name := "Manager"; username := None |}.

Definition alice : user :=
  {| user_id := 5; first_name := "Alice"; username := Some "alice" |}.

Definition bob : user :=
  {| user_id := 7; first_name := "Bob"; username := None |}.

Definition text_message (chat : Z) (t : string) : message :=
  {| message_id := 1; msg_chat_id := chat; msg_text := Some t;
     bot_command := None; photo := []; successful_payment := false |}.

Definition image_message (chat : Z) : message :=
  {| message_id := 2; msg_chat_id := chat; msg_text := None;
     bot_command := None;
     photo := [ {| file_id := "small"; width := 90; height := 90 |};
                {| file_id := "large"; width := 800; height := 800 |} ];
     successful_payment := false |}.

Definition payment_message (chat : Z) : message :=
  {| message_id := 3; msg_chat_id := chat; msg_text := None;
     bot_command := None; photo := []; successful_payment := true |}.

Definition start_message (chat : Z) : message :=
  {| message_id := 4; msg_chat_id := chat; msg_text := Some "/start";
     bot_command := Some "start"; photo := []; successful_payment := false |}.

(** A state in which [uid] waits for the receipt to be checked. *)
Definition waiting_state (uid : Z) : state :=
  waiting_add uid initial_state.

(* ===================================================================== *)
(** ** Vocabulary of the statements *)
(* ===================================================================== *)

(** The press of the button is acknowledged: the first call of
    [callback_query_handler] returns. *)
Definition acknowledged (env : environment) : Prop :=
  env_raises env [] (query_answer None false) = None.

(** A call was made in a run, whatever came of it. *)
Definition issued (c : call) (tr : list event) : Prop :=
  ∃ o, Called c o ∈ tr.

(** A handler keeps a relation between the dictionaries before and after,
    in every environment and whether it returns or raises. *)
Definition respects {A} (R : state → state → Prop) (m : M A) : Prop :=
  ∀ env w, R (w_state w) (w_state (m env w).2).

(** Relations on the dictionaries. *)
Definition same_inline_messages (s s' : state) : Prop :=
  current_inline_message s' = current_inline_message s.
Definition same_queries (s s' : state) : Prop :=
  users_query s' = users_query s.
Definition same_subscribers (s s' : state) : Prop :=
  users_subs_list s' = users_subs_list s.
Definition same_waiting (s s' : state) : Prop :=
  users_waitingcryptocheck s' = users_waitingcryptocheck s.
Definition subscribers_extended (s s' : state) : Prop :=
  users_subs_list s `prefix_of` users_subs_list s'.

(** The action tokens [callback_query_handler] has a branch for. *)
Definition recognized (data : string) : bool :=
  Py.startswith "admin_cryptopay_" data
  || String.eqb data "start"
  || String.eqb data "siski_gopay"
  || String.eqb data "siski_gocryptopay"
  || String.eqb data "siski_checkcryptopay"
  || String.eqb data "siski_gostarpay"
  || String.eqb data "siski_gocryptopayagain".

(** The dictionaries right after the acknowledgement and the drop of a
    stale wait. *)
Definition after_clear (u : user) (data : string) (st : state) : state :=
  if negb (String.eqb data "siski_checkcryptopay")
     && bool_decide (user_id u ∈ users_waitingcryptocheck st)
  then waiting_discard (user_id u) st
  else st.

Arguments after_clear : simpl never.

Definition is_invoice (c : call) : bool :=
  match c with
  | message_reply_invoice _ _ _ _ _ _ _ _ => true
  | _ => false
  end.




(** A grant to a user who is already in the list: one more entry, the same
    members, and an entry that now occurs twice. *)
Definition repeated_grant (n : Z) (st st' : state) : Prop :=
  users_subs_list st' = (users_subs_list st ++ [n])%list
  ∧ (∀ x, x ∈ users_subs_list st' ↔ x ∈ users_subs_list st)
  ∧ ¬ NoDup (users_subs_list st').

(** The dictionaries after [/start] and a press of [siski_gostarpay] by
    the sample user, every call returning. *)
Definition state_after_checkout : state :=
  step cfg0 env_ok
    (step cfg0 env_ok initial_state (MessageUpdate alice 5 (start_message 5)))
    (CallbackQueryUpdate alice 5 (Some "siski_gostarpay")).

(* ===================================================================== *)
(** ** Further vocabulary: the acting user, keyboards, sample data *)
(* ===================================================================== *)

(** [update.effective_user.id] *)
Definition acting_user (upd : update) : Z :=
  match upd with
  | MessageUpdate u _ _ => user_id u
  | EditedMessageUpdate u _ _ => user_id u
  | CallbackQueryUpdate u _ _ => user_id u
  | PreCheckoutQueryUpdate u _ _ => user_id u
  end.

(** What the dictionaries hold for the user [v] is the same before and
    after: the wait for a receipt and the saved message. *)
Definition entries_kept (v : Z) (s s' : state) : Prop :=
  (v ∈ users_waitingcryptocheck s' ↔ v ∈ users_waitingcryptocheck s)
  ∧ current_inline_message s' !! v = current_inline_message s !! v.

(** The greeting's button. *)
Definition hello_keyboard : keyboard :=
  [[CallbackButton "Да, конечно💕 / Yes, of course💕" "siski_gopay"]].

(** The two ways to pay. *)
Definition payment_menu_keyboard : keyboard :=
  [[CallbackButton "TG Stars⭐️ (Apple Pay-Google Pay)" "siski_gostarpay"];
   [CallbackButton "(USDT TRC20)💎" "siski_gocryptopay"]].

(** The button sent to a user whose receipt is refused. *)
Definition retry_keyboard : keyboard :=
  [[CallbackButton "🔁" "siski_gocryptopayagain"]].

(** The invoice of the branch [siski_gostarpay], as a reply to [m]. *)
Definition invoice_call (cfg : config) (m : message) : call :=
  message_reply_invoice m "💕💕💕" "🔽🔽🔽" [("XTR", 1500)]
    (PROVIDER_TOKEN cfg) "siski" "XTR" (Some [[PayButton "1500 ⭐"]]).

(** The edit that asks for the receipt. *)
Definition ask_receipt_call : call :=
  query_edit_message_caption text_send_receipt
    (Some [[CallbackButton "❌" "siski_gocryptopay"]]).

(** The photo of the deposit address sent anew to a user. *)
Definition deposit_photo_call (u : user) : call :=
  bot_send_photo (user_id u) (Buffer (photos "photo_payments.JPG"))
    text_deposit_address (Some crypto_keyboard).

(** The first call of every button press, returned. *)
Definition acked : event := Called (query_answer None false) None.

(** An environment in which every call raises. *)
Definition env_all_fail : environment :=
  {| env_raises := fun _ _ => Some TelegramError;
     env_sent := fun _ _ => no_message;
     env_int := fun _ => None |}.

(** A command other than [/start]. *)
Definition help_message (chat : Z) : message :=
  {| message_id := 5; msg_chat_id := chat; msg_text := Some "/help";
     bot_command := Some "help"; photo := []; successful_payment := false |}.




(** The alert of the branch [siski_gostarpay]. *)
Definition no_source_alert : call :=
  query_answer
    (Some "Не удалось найти исходное сообщение для выставления счёта") true.

(* ===================================================================== *)
(** * Facts about the Python strings *)
(* ===================================================================== *)

Lemma split_no_sep s :
  Py.string_forall Py.not_colon s = true → Py.split ":" s = [s].
Proof.
  induction s as [|c r IH]; cbn; [done|].
  intros [Hc Hr]%andb_true_iff. unfold Py.not_colon in Hc.
  apply negb_true_iff in Hc. rewrite Hc, IH by done. done.
Qed.

Lemma split_once a b :
  Py.string_forall Py.not_colon a = true →
  Py.string_forall Py.not_colon b = true →
  Py.split ":" (a +:+ ":" +:+ b) = [a; b].
Proof.
  intros Ha Hb. induction a as [|c r IH].
  - change (Py.split ":" (String ":" b) = [""; b]). cbn.
    by rewrite split_no_sep.
  - change (Py.split ":" (String c (r +:+ ":" +:+ b)) = [String c r; b]).
    cbn in Ha. apply andb_true_iff in Ha as [Hc Hr].
    unfold Py.not_colon in Hc. apply negb_true_iff in Hc. cbn.
    by rewrite Hc, IH.
Qed.

Lemma pretty_N_char_spec d :
  (d < 10)%N →
  Py.is_digit (pretty_N_char d) = true
  ∧ Py.digit_val (pretty_N_char d) = d
  ∧ Py.not_colon (pretty_N_char d) = true.
Proof.
  intros Hd.
  assert (d = 0 ∨ d = 1 ∨ d = 2 ∨ d = 3 ∨ d = 4 ∨ d = 5 ∨ d = 6 ∨ d = 7
          ∨ d = 8 ∨ d = 9)%N as Hcases by lia.
  repeat (destruct Hcases as [->|Hcases]; [by vm_compute|]).
  subst d. by vm_compute.
Qed.

Lemma pretty_N_go_no_colon x : ∀ s,
  Py.string_forall Py.not_colon s = true →
  Py.string_forall Py.not_colon (pretty_N_go x s) = true.
Proof.
  induction (N.lt_wf_0 x) as [x _ IH]. intros s Hs.
  destruct (decide (x = 0)%N) as [->|Hx]; [by rewrite pretty_N_go_0|].
  rewrite pretty_N_go_step by lia. apply IH.
  - apply N.div_lt; lia.
  - cbn. rewrite Hs, andb_true_r.
    apply pretty_N_char_spec, N.mod_lt. lia.
Qed.

(** Reading back the digits that [str] wrote. *)
Lemma pretty_N_go_digits x : ∀ s acc prev,
  (0 < x)%N →
  ∃ k, Py.int_digits (pretty_N_go x s) acc prev
       = Py.int_digits s (acc * 10 ^ k + x)%N true.
Proof.
  induction (N.lt_wf_0 x) as [x _ IH]. intros s acc prev Hx.
  rewrite pretty_N_go_step by done.
  destruct (pretty_N_char_spec (x `mod` 10)%N) as (Hd & Hv & _);
    [apply N.mod_lt; lia|].
  pose proof (N.div_mod x 10 ltac:(lia)) as Hdm.
  destruct (decide (x `div` 10 = 0)%N) as [Hq|Hq].
  - rewrite Hq, pretty_N_go_0. exists 1%N. cbn [Py.int_digits].
    rewrite Hd, Hv. f_equal. lia.
  - assert (Hlt : (x `div` 10 < x)%N) by (apply N.div_lt; lia).
    assert (Hpos : (0 < x `div` 10)%N) by (by apply N.neq_0_lt_0).
    destruct (IH _ Hlt (String (pretty_N_char (x `mod` 10)) s) acc prev Hpos)
      as [k Hk].
    exists (k + 1)%N. rewrite Hk. cbn [Py.int_digits]. rewrite Hd, Hv. f_equal.
    rewrite N.pow_add_r, N.pow_1_r. lia.
Qed.

Lemma pretty_N_go_head x : ∀ s,
  (0 < x)%N → ∃ c r, pretty_N_go x s = String c r ∧ Py.is_digit c = true.
Proof.
  induction (N.lt_wf_0 x) as [x _ IH]. intros s Hx.
  rewrite pretty_N_go_step by done.
  destruct (decide (x `div` 10 = 0)%N) as [Hq|Hq].
  - rewrite Hq, pretty_N_go_0. eexists _, _. split; [reflexivity|].
    apply pretty_N_char_spec, N.mod_lt. done.
  - apply IH; [apply N.div_lt; lia | by apply N.neq_0_lt_0].
Qed.

Lemma digit_not_space_nor_sign c :
  Py.is_digit c = true →
  Py.is_space c = false ∧ Ascii.eqb c "-" = false ∧ Ascii.eqb c "+" = false.
Proof.
  intros Hd. split; [|split].
  - unfold Py.is_digit, Py.is_space in *. cbv zeta in *.
    apply andb_true_iff in Hd as [H1%Nat.leb_le H2%Nat.leb_le].
    apply orb_false_iff. split.
    + apply andb_false_iff. right. apply Nat.leb_gt. lia.
    + apply Nat.eqb_neq. lia.
  - destruct (Ascii.eqb_spec c "-") as [->|]; [discriminate Hd | done].
  - destruct (Ascii.eqb_spec c "+") as [->|]; [discriminate Hd | done].
Qed.

Lemma int_digit_head c r :
  Py.is_digit c = true →
  Py.int_ascii (String c r) = Z.of_N <$> Py.int_digits (String c r) 0%N false.
Proof.
  intros Hd. destruct (digit_not_space_nor_sign c Hd) as (Hs & Hm & Hp).
  unfold Py.int_ascii. cbn [Py.lstrip]. by rewrite Hs, Hm, Hp.
Qed.

Lemma int_digits_positive p :
  Py.int_digits (pretty_N_go (N.pos p) "") 0 false = Some (N.pos p).
Proof.
  destruct (pretty_N_go_digits (N.pos p) "" 0%N false ltac:(lia)) as [k ->].
  reflexivity.
Qed.

(** [int(str(n)) == n], on the ASCII reading. *)
Lemma int_ascii_str n : Py.int_ascii (Py.str n) = Some n.
Proof.
  unfold Py.str, pretty, pretty_Z. destruct n as [|p|p].
  - reflexivity.
  - unfold pretty, pretty_positive, pretty, pretty_N.
    destruct (decide (N.pos p = 0%N)); [done|].
    destruct (pretty_N_go_head (N.pos p) "" ltac:(lia)) as (c & r & Heq & Hc).
    rewrite Heq, int_digit_head, <- Heq, int_digits_positive by done. done.
  - unfold pretty, pretty_positive, pretty, pretty_N.
    destruct (decide (N.pos p = 0%N)); [done|].
    change (Py.int_ascii (String "-" (pretty_N_go (N.pos p) ""))
            = Some (Z.neg p)).
    unfold Py.int_ascii. cbn [Py.lstrip]. change (Py.is_space "-") with false.
    change (Ascii.eqb "-" "-") with true. cbv iota.
    by rewrite int_digits_positive.
Qed.

Lemma pretty_N_go_forall (P : ascii → bool) :
  (∀ d, (d < 10)%N → P (pretty_N_char d) = true) →
  ∀ x s, Py.string_forall P s = true →
         Py.string_forall P (pretty_N_go x s) = true.
Proof.
  intros HP x. induction (N.lt_wf_0 x) as [x _ IH]. intros s Hs.
  destruct (decide (x = 0)%N) as [->|Hx]; [by rewrite pretty_N_go_0|].
  rewrite pretty_N_go_step by lia. apply IH.
  - apply N.div_lt; lia.
  - cbn. rewrite Hs, andb_true_r. apply HP, N.mod_lt. lia.
Qed.

Lemma pretty_N_char_ascii d : (d < 10)%N → Py.is_ascii (pretty_N_char d) = true.
Proof.
  intros Hd.
  assert (d = 0 ∨ d = 1 ∨ d = 2 ∨ d = 3 ∨ d = 4 ∨ d = 5 ∨ d = 6 ∨ d = 7
          ∨ d = 8 ∨ d = 9)%N as Hcases by lia.
  repeat (destruct Hcases as [->|Hcases]; [by vm_compute|]).
  subst d. by vm_compute.
Qed.

(** The digits of a number below [10 ^ k] are at most [k]. *)
Lemma pretty_N_go_length (k : nat) : ∀ x s,
  (x < 10 ^ N.of_nat k)%N →
  (String.length (pretty_N_go x s) ≤ String.length s + k)%nat.
Proof.
  induction k as [|k IH]; intros x s Hx.
  - assert (x = 0%N) as -> by (cbn in Hx; lia). rewrite pretty_N_go_0. lia.
  - destruct (decide (x = 0)%N) as [->|Hne]; [rewrite pretty_N_go_0; lia|].
    rewrite pretty_N_go_step by lia.
    etransitivity; [apply IH|cbn; lia].
    rewrite Nat2N.inj_succ, N.pow_succ_r' in Hx.
    apply N.Div0.div_lt_upper_bound. lia.
Qed.

(** The writing of an id of 64 bits is plain. *)
Lemma plain_str n : (Z.abs n < 2 ^ 63)%Z → Py.plain (Py.str n) = true.
Proof.
  intros Hn. unfold Py.plain. apply andb_true_iff. split.
  - apply Nat.leb_le. unfold Py.str, pretty, pretty_Z.
    destruct n as [|p|p]; [cbn; lia|..];
      unfold pretty, pretty_positive, pretty, pretty_N;
      (destruct (decide (N.pos p = 0%N)); [done|]).
    + pose proof (pretty_N_go_length 19 (N.pos p) "" ltac:(lia)) as H.
      change (String.length "") with 0%nat in H. lia.
    + pose proof (pretty_N_go_length 19 (N.pos p) "" ltac:(lia)) as H.
      change (S (String.length (pretty_N_go (N.pos p) "")) ≤ 640)%nat.
      change (String.length "") with 0%nat in H. lia.
  - unfold Py.str, pretty, pretty_Z.
    destruct n as [|p|p]; [done|..];
      unfold pretty, pretty_positive, pretty, pretty_N;
      (destruct (decide (N.pos p = 0%N)); [done|]).
    + apply pretty_N_go_forall; [apply pretty_N_char_ascii | done].
    + change (Py.string_forall Py.is_ascii
                (String "-" (pretty_N_go (N.pos p) "")) = true).
      cbn [Py.string_forall]. change (Py.is_ascii "-") with true.
      apply pretty_N_go_forall; [apply pretty_N_char_ascii | done].
Qed.

(** [int(str(n)) == n] for an id of 64 bits, whatever the interpreter gives
    on the strings that are not plain. *)
Lemma int_str other n :
  (Z.abs n < 2 ^ 63)%Z → Py.int other (Py.str n) = Some n.
Proof.
  intros Hn. unfold Py.int. rewrite (plain_str n Hn). apply int_ascii_str.
Qed.

Lemma str_no_colon n : Py.string_forall Py.not_colon (Py.str n) = true.
Proof.
  unfold Py.str, pretty, pretty_Z. destruct n as [|p|p]; [done|..];
    unfold pretty, pretty_positive, pretty, pretty_N;
    (destruct (decide (N.pos p = 0%N)); [done|]).
  - by apply pretty_N_go_no_colon.
  - change (Py.string_forall Py.not_colon
              (String "-" (pretty_N_go (N.pos p) "")) = true).
    cbn [Py.string_forall]. change (Py.not_colon "-") with true.
    by apply pretty_N_go_no_colon.
Qed.

(** [str(user.id) in map(str, admin_ids)] is membership in [admin_ids]. *)
Lemma is_admin_spec cfg u : is_admin cfg u = true ↔ user_id u ∈ admin_ids cfg.
Proof.
  unfold is_admin, Py.str. rewrite bool_decide_eq_true, list_elem_of_fmap. split.
  - intros (y & Hy & Hin). apply (inj pretty) in Hy. subst y.
    apply elem_of_elements. exact Hin.
  - intros Hin. exists (user_id u). split; [done|]. by apply elem_of_elements.
Qed.

Lemma is_admin_false cfg u : user_id u ∉ admin_ids cfg → is_admin cfg u = false.
Proof.
  intros Hn. destruct (is_admin cfg u) eqn:E; [|done].
  apply is_admin_spec in E. done.
Qed.

Lemma admin_prefix_not_checkcryptopay data :
  Py.startswith "admin_cryptopay_" data = true →
  String.eqb data "siski_checkcryptopay" = false.
Proof.
  intros H.
  destruct (String.eqb_spec data "siski_checkcryptopay") as [->|]; [|done].
  vm_compute in H. discriminate.
Qed.

(* ===================================================================== *)
(** * What a handler does to the dictionaries *)
(* ===================================================================== *)

Section Respects.
Context (R : state → state → Prop) `{!PreOrder R}.

Lemma respects_ret {A} (a : A) : respects R (mret a).
Proof. intros env w. reflexivity. Qed.

Lemma respects_raise {A} e : respects R (@raise A e).
Proof. intros env w. reflexivity. Qed.

Lemma respects_get : respects R get.
Proof. intros env w. reflexivity. Qed.

Lemma respects_do_call c : respects R (do_call c).
Proof.
  intros env w. unfold do_call. destruct (env_raises _ _ _); reflexivity.
Qed.

Lemma respects_logger_exception t : respects R (logger_exception t).
Proof. intros env w. reflexivity. Qed.

Lemma respects_logger_info t : respects R (logger_info t).
Proof. intros env w. reflexivity. Qed.

Lemma respects_py_int s : respects R (py_int s).
Proof.
  intros env w. unfold py_int. destruct (Py.int _ s); reflexivity.
Qed.

Lemma respects_modify f : (∀ st, R st (f st)) → respects R (modify f).
Proof. intros Hf env w. apply Hf. Qed.

Lemma respects_bind {A B} (m : M A) (k : A → M B) :
  respects R m → (∀ a, respects R (k a)) → respects R (m ≫= k).
Proof.
  intros Hm Hk env w. unfold mbind, M_bind, bind.
  specialize (Hm env w). destruct (m env w) as [[a|e] w']; simpl in *.
  - etransitivity; [exact Hm | apply Hk].
  - exact Hm.
Qed.

Lemma respects_try_except {A} (body handler : M A) catches :
  respects R body → respects R handler →
  respects R (try_except body catches handler).
Proof.
  intros Hb Hh env w. unfold try_except.
  specialize (Hb env w). destruct (body env w) as [[a|e] w']; simpl in *.
  - exact Hb.
  - destruct (catches e); simpl; [|exact Hb].
    etransitivity; [exact Hb | apply Hh].
Qed.

Lemma respects_read_image_bytes p : respects R (read_image_bytes p).
Proof.
  apply respects_bind; [apply respects_do_call | intros; apply respects_ret].
Qed.

End Respects.

(** One step of a proof that a handler keeps a relation: the rule of the
    construct at the head. *)
Ltac respects_step :=
  lazymatch goal with
  | |- respects ?R (if ?b then _ else _) => destruct b
  | |- respects ?R (match ?x with _ => _ end) => destruct x
  | |- respects ?R (mret _) => apply (respects_ret R)
  | |- respects ?R (raise _) => apply (respects_raise R)
  | |- respects ?R get => apply (respects_get R)
  | |- respects ?R (do_call _) => apply (respects_do_call R)
  | |- respects ?R (logger_exception _) => apply (respects_logger_exception R)
  | |- respects ?R (logger_info _) => apply (respects_logger_info R)
  | |- respects ?R (py_int _) => apply (respects_py_int R)
  | |- respects ?R (read_image_bytes _) => apply (respects_read_image_bytes R)
  | |- respects ?R (_ ≫= _) => apply (respects_bind R); [| intros ?]
  | |- respects ?R (try_except _ _ _) => apply (respects_try_except R)
  | |- respects ?R (modify _) => apply (respects_modify R); intros ?
  end.
Ltac respects_auto := cbv zeta; repeat respects_step.

#[local] Instance same_inline_messages_po : PreOrder same_inline_messages.
Proof. split; [done | intros a b c; unfold same_inline_messages; congruence]. Qed.

#[local] Instance same_queries_po : PreOrder same_queries.
Proof. split; [done | intros a b c; unfold same_queries; congruence]. Qed.

#[local] Instance same_subscribers_po : PreOrder same_subscribers.
Proof. split; [done | intros a b c; unfold same_subscribers; congruence]. Qed.

#[local] Instance same_waiting_po : PreOrder same_waiting.
Proof. split; [done | intros a b c; unfold same_waiting; congruence]. Qed.

#[local] Instance subscribers_extended_po : PreOrder subscribers_extended.
Proof.
  split; [intros a; unfold subscribers_extended; reflexivity|].
  intros a b c; unfold subscribers_extended; apply transitivity.
Qed.

(* ===================================================================== *)
(** * Running the handlers *)
(* ===================================================================== *)

Ltac unfold_monad :=
  unfold read_image_bytes, py_int;
  unfold mbind, M_bind, bind, mret, M_ret, ret, raise, do_call, get, modify,
    try_except, logger_exception, logger_info.

(** Membership of an event in an explicit record of events. *)
Ltac in_trace :=
  first [ apply list_elem_of_here | apply list_elem_of_further; in_trace ].

(** An event of another kind is not in an explicit record of events. *)
Ltac not_in_trace H :=
  repeat (apply elem_of_cons in H as [H|H]; [discriminate H|]);
  by apply elem_of_nil in H.

(** Case analysis on what the environment answers to each call of a run. *)
Ltac case_calls :=
  repeat match goal with
    | |- context [env_raises ?env ?tr ?c] =>
        let o := fresh "o" in
        let Ho := fresh "Ho" in
        destruct (env_raises env tr c) as [o|] eqn:Ho; cbn
    | |- context [only_FileNotFoundError ?e] => is_var e; destruct e; cbn
    end.

(** Once the press is acknowledged, the handler is at its chain of tests,
    the stale wait dropped. *)
Lemma callback_run cfg env st u chat qd :
  acknowledged env →
  run (callback_query_handler cfg u chat qd) env st =
  route_callback cfg u chat (default "" qd) env
    {| w_state := after_clear u (default "" qd) st;
       w_trace := [Called (query_answer None false) None] |}.
Proof.
  intros Hack.
  unfold run, callback_query_handler, clear_stale_waiting, after_clear.
  unfold_monad. cbn. rewrite Hack. cbn.
  destruct (negb _ && _); reflexivity.
Qed.

(** When the acknowledgement raises, nothing else happens. *)
Lemma callback_not_acknowledged cfg env st u chat qd e :
  env_raises env [] (query_answer None false) = Some e →
  run (callback_query_handler cfg u chat qd) env st =
  (Raised e, {| w_state := st;
                w_trace := [Called (query_answer None false) (Some e)] |}).
Proof.
  intros Hack. unfold run, callback_query_handler. unfold_monad. cbn.
  rewrite Hack. reflexivity.
Qed.

Lemma after_clear_waiting u data st :
  String.eqb data "siski_checkcryptopay" = false →
  users_waitingcryptocheck (after_clear u data st)
  = users_waitingcryptocheck st ∖ {[ user_id u ]}.
Proof.
  intros H. unfold after_clear. rewrite H. cbn.
  case_bool_decide as Hin; cbn; [done|].
  apply set_eq. intros x. rewrite elem_of_difference, elem_of_singleton.
  split; [|tauto]. intros Hx. split; [done|]. intros ->. done.
Qed.

Lemma after_clear_others u data st :
  current_inline_message (after_clear u data st) = current_inline_message st
  ∧ users_query (after_clear u data st) = users_query st
  ∧ users_subs_list (after_clear u data st) = users_subs_list st.
Proof. unfold after_clear. destruct (negb _ && _); done. Qed.

(** No branch but the one of [siski_checkcryptopay] touches the set of the
    users who wait for a receipt to be checked. *)
Lemma route_callback_same_waiting cfg u chat data :
  String.eqb data "siski_checkcryptopay" = false →
  respects same_waiting (route_callback cfg u chat data).
Proof.
  intros H. unfold route_callback. rewrite H. cbv iota.
  unfold admin_callback, gostarpay_callback, start_handler.
  respects_auto; reflexivity.
Qed.

(** An approval by the manager appends the user named in the token, whatever
    becomes of the calls that follow. *)
Lemma approve_appends cfg env st u chat qd action_part target_user_id n :
  Py.startswith "admin_cryptopay_" (default "" qd) = true →
  Py.split ":" (default "" qd) = [action_part; target_user_id] →
  Py.endswith "_YES" action_part = true →
  Py.int (env_int env) target_user_id = Some n →
  user_id u ∈ admin_ids cfg →
  acknowledged env →
  users_subs_list (final_state (run (callback_query_handler cfg u chat qd) env st))
  = (users_subs_list st ++ [n])%list.
Proof.
  intros Hpre Hsplit Hyes Hint Hadm Hack. rewrite callback_run by done.
  unfold route_callback. rewrite Hpre. unfold admin_callback.
  rewrite Hsplit. cbn [length nth Nat.eqb andb].
  apply is_admin_spec in Hadm. rewrite Hadm, Hyes.
  destruct (after_clear_others u (default "" qd) st) as (_ & _ & Hs).
  unfold final_state. unfold_monad. cbn. rewrite Hint. cbn.
  case_calls; rewrite ?Hint; cbn; case_calls; by rewrite Hs.
Qed.

(** The button the manager gets under a receipt approves its sender. *)
Lemma approve_button_grants cfg env st operator chat sender :
  (Z.abs (user_id sender) < 2 ^ 63)%Z →
  user_id operator ∈ admin_ids cfg →
  acknowledged env →
  users_subs_list
    (final_state
       (run (callback_query_handler cfg operator chat
               (Some ("admin_cryptopay_YES:" +:+ Py.str (user_id sender))))
          env st))
  = (users_subs_list st ++ [user_id sender])%list.
Proof.
  intros Hid Hadm Hack.
  apply (approve_appends cfg env st operator chat _ "admin_cryptopay_YES"
           (Py.str (user_id sender))); try done.
  - apply (split_once "admin_cryptopay_YES"); [reflexivity | apply str_no_colon].
  - by apply int_str.
Qed.

(** The payment handler: the grant follows the delivery. *)
Lemma payment_delivered cfg env st u chat :
  env_raises env [] (aiofiles_read (photos "photo_thanks.JPG")) = None →
  env_raises env [Called (aiofiles_read (photos "photo_thanks.JPG")) None]
    (reward_call cfg chat) = None →
  let r := run (successful_payment_handler cfg u chat) env st in
  users_subs_list (final_state r) = (users_subs_list st ++ [user_id u])%list
  ∧ Called (reward_call cfg chat) None ∈ trace_of r.
Proof.
  intros Hread Hsend r. subst r.
  unfold successful_payment_handler, run, final_state, trace_of, reward_call in *.
  unfold_monad. cbn. rewrite Hread. cbn. rewrite Hsend. cbn.
  destruct (users_query st !! user_id u) as [sq|]; cbn.
  - destruct (sq_truthy sq && sq_has_edit_message_caption sq); cbn.
    + case_calls; (split; [done | in_trace]).
    + split; [done | in_trace].
  - split; [done | in_trace].
Qed.

(** When the image cannot be read or sent, the payer is not added. *)
Lemma payment_not_delivered cfg env st u chat :
  env_raises env [] (aiofiles_read (photos "photo_thanks.JPG")) ≠ None
  ∨ env_raises env [Called (aiofiles_read (photos "photo_thanks.JPG")) None]
      (reward_call cfg chat) ≠ None →
  final_state (run (successful_payment_handler cfg u chat) env st) = st.
Proof.
  unfold successful_payment_handler, run, final_state, reward_call.
  unfold_monad. cbn. intros H.
  destruct (env_raises env [] _) eqn:Hread; cbn; [done|].
  destruct (env_raises env [_] _) eqn:Hsend; cbn; [done|].
  destruct H; done.
Qed.

Lemma payment_without_saved_query cfg env st u chat :
  users_query st !! user_id u = None →
  ¬ issued (saved_query_edit_message_caption " ")
      (trace_of (run (successful_payment_handler cfg u chat) env st)).
Proof.
  intros Hq [o Hin]. revert Hin.
  unfold successful_payment_handler, run, final_state, trace_of.
  unfold_monad. cbn. case_calls; rewrite ?Hq; cbn; intros Hin; not_in_trace Hin.
Qed.

(* ===================================================================== *)
(** * Dispatch and the reachable states *)
(* ===================================================================== *)

(** Which handler a message goes to. *)
Lemma process_update_message cfg u chat_id m :
  process_update cfg (MessageUpdate u chat_id m) =
  if bool_decide (bot_command m = Some "start")
  then start_handler u chat_id (Some m)
  else if successful_payment m then successful_payment_handler cfg u chat_id
  else if negb (bool_decide (photo m = []))
          && negb (bool_decide (is_Some (bot_command m)))
  then photo_message_handler cfg u m
  else if negb (bool_decide (is_Some (bot_command m)))
  then fallback_message_handler chat_id
  else mret tt.
Proof.
  unfold process_update, handlers. cbn.
  destruct (bool_decide (bot_command m = Some "start")); [reflexivity|].
  destruct (successful_payment m); [reflexivity|].
  destruct (bool_decide (photo m = [])), (bool_decide (is_Some (bot_command m)));
    reflexivity.
Qed.

(** Which handler an edited message goes to. *)
Lemma process_update_edited cfg u chat_id m :
  process_update cfg (EditedMessageUpdate u chat_id m) =
  if bool_decide (bot_command m = Some "start")
  then start_handler u chat_id None
  else if successful_payment m then successful_payment_handler cfg u chat_id
  else if negb (bool_decide (photo m = []))
          && negb (bool_decide (is_Some (bot_command m)))
  then raise AttributeError
  else if negb (bool_decide (is_Some (bot_command m)))
  then fallback_message_handler chat_id
  else mret tt.
Proof.
  unfold process_update, handlers. cbn.
  destruct (bool_decide (bot_command m = Some "start")); [reflexivity|].
  destruct (successful_payment m); [reflexivity|].
  destruct (bool_decide (photo m = [])), (bool_decide (is_Some (bot_command m)));
    reflexivity.
Qed.

Lemma process_update_respects (R : state → state → Prop) `{!PreOrder R} cfg upd :
  (∀ u chat m, respects R (start_handler u chat m)) →
  (∀ u chat qd, respects R (callback_query_handler cfg u chat qd)) →
  (∀ u chat, respects R (successful_payment_handler cfg u chat)) →
  (∀ u m, respects R (photo_message_handler cfg u m)) →
  respects R (process_update cfg upd).
Proof.
  intros Hstart Hcb Hpay Hphoto.
  destruct upd as [u chat m|u chat m|u chat qd|u qid amount].
  - rewrite process_update_message. unfold fallback_message_handler.
    respects_auto; auto.
  - rewrite process_update_edited. unfold fallback_message_handler.
    respects_auto; auto.
  - apply Hcb.
  - change (respects R (precheckout_handler qid amount)).
    unfold precheckout_handler. respects_auto.
Qed.

Lemma callback_query_handler_respects (R : state → state → Prop) `{!PreOrder R}
    cfg u chat qd :
  (∀ st uid, R st (waiting_discard uid st)) →
  (∀ st uid, R st (waiting_add uid st)) →
  (∀ st uid m, R st (store_inline_message uid m st)) →
  (∀ st uid, R st (subs_append uid st)) →
  respects R (callback_query_handler cfg u chat qd).
Proof.
  intros H1 H2 H3 H4.
  unfold callback_query_handler, clear_stale_waiting, route_callback,
    admin_callback, gostarpay_callback, start_handler.
  respects_auto; auto.
Qed.

(** A relation kept by the four updates of the dictionaries is kept by
    every delivery. *)
Lemma process_update_respects_updates (R : state → state → Prop) `{!PreOrder R}
    cfg upd :
  (∀ st uid, R st (waiting_discard uid st)) →
  (∀ st uid, R st (waiting_add uid st)) →
  (∀ st uid m, R st (store_inline_message uid m st)) →
  (∀ st uid, R st (subs_append uid st)) →
  respects R (process_update cfg upd).
Proof.
  intros H1 H2 H3 H4. apply process_update_respects; try done.
  - intros. unfold start_handler. respects_auto; auto.
  - intros. by apply callback_query_handler_respects.
  - intros. unfold successful_payment_handler. respects_auto; auto.
  - intros. unfold photo_message_handler. respects_auto; auto.
Qed.

(** Nothing writes [users_query]. *)
Lemma step_same_queries cfg env st upd :
  users_query (step cfg env st upd) = users_query st.
Proof.
  unfold step, final_state, run.
  by apply (process_update_respects_updates same_queries cfg upd).
Qed.

Lemma reachable_users_query_empty cfg st :
  reachable cfg st → users_query st = ∅.
Proof.
  induction 1 as [|st env upd _ IH]; [done|].
  by rewrite step_same_queries.
Qed.

(** The list of subscribers only grows, at its end. *)
Lemma step_subscribers_extended cfg env st upd :
  users_subs_list st `prefix_of` users_subs_list (step cfg env st upd).
Proof.
  unfold step, final_state, run.
  apply (process_update_respects_updates subscribers_extended cfg upd);
    intros; unfold subscribers_extended; cbn; try reflexivity.
  by apply prefix_app_r.
Qed.

(** In no state the process can be in does the payment handler reach the
    call that clears a caption. *)
Lemma payment_never_clears_caption cfg st env u chat :
  reachable cfg st →
  ¬ issued (saved_query_edit_message_caption " ")
      (trace_of (run (successful_payment_handler cfg u chat) env st)).
Proof.
  intros Hreach. apply payment_without_saved_query.
  by rewrite (reachable_users_query_empty cfg st Hreach).
Qed.

(** A message without an image never gets the reply of
    [photo_message_handler] that asks for the receipt again. *)
Lemma text_message_never_asks_receipt_again cfg env st u chat_id m :
  photo m = [] →
  ¬ issued (message_reply_text text_receipt_again)
      (trace_of (run (process_update cfg (MessageUpdate u chat_id m)) env st)).
Proof.
  intros Hphoto [o Hin]. revert Hin. rewrite process_update_message, Hphoto.
  rewrite (bool_decide_eq_true_2 (@nil photo_size = [])) by reflexivity.
  cbn [negb andb].
  unfold start_handler, successful_payment_handler, fallback_message_handler,
    run, trace_of.
  destruct (bool_decide (bot_command m = Some "start")).
  { unfold_monad. cbn. case_calls; intros Hin; not_in_trace Hin. }
  destruct (successful_payment m).
  { unfold_monad. cbn. case_calls.
    all: try (intros Hin; not_in_trace Hin).
    all: destruct (users_query st !! user_id u) as [sq|]; cbn;
         [destruct (sq_truthy sq && sq_has_edit_message_caption sq); cbn|];
         case_calls; intros Hin; not_in_trace Hin. }
  destruct (negb (bool_decide (is_Some (bot_command m)))).
  - unfold_monad. cbn. case_calls; intros Hin; not_in_trace Hin.
  - cbn. intros Hin. not_in_trace Hin.
Qed.

Lemma append_member_repeated n st st' :
  n ∈ users_subs_list st →
  users_subs_list st' = (users_subs_list st ++ [n])%list →
  repeated_grant n st st'.
Proof.
  intros Hin Heq. split; [done|]. rewrite Heq. split.
  - intros x. rewrite elem_of_app, list_elem_of_singleton.
    split; [intros [Hx| ->]; assumption | intros Hx; left; exact Hx].
  - rewrite NoDup_app. intros (_ & Hdisj & _).
    apply (Hdisj n Hin). apply list_elem_of_here.
Qed.

(* ===================================================================== *)
(** * The claims of the specification *)
(* ===================================================================== *)

(** C1, as the specification states it, fails: a user who is not the
    manager and who waits for a receipt to be checked presses a button of
    the form [admin_cryptopay_...]; the press is refused, but the user is
    taken out of [users_waitingcryptocheck], so the state has changed. *)
Lemma C1_counterexample :
  let r := run (callback_query_handler cfg0 alice 5 (Some "admin_cryptopay_YES:7"))
             env_ok (waiting_state 5) in
  Py.startswith "admin_cryptopay_" "admin_cryptopay_YES:7" = true
  ∧ (user_id alice ∉ admin_ids cfg0)
  ∧ user_id alice ∈ users_waitingcryptocheck (waiting_state 5)
  ∧ (user_id alice ∉ users_waitingcryptocheck (final_state r))
  ∧ final_state r ≠ waiting_state 5.
Proof.
  cbv zeta. split; [reflexivity|]. split; [compute_done|].
  split; [compute_done|]. split; [compute_done|].
  intros H. apply (f_equal users_waitingcryptocheck) in H.
  assert (Hin : user_id alice ∈ users_waitingcryptocheck (waiting_state 5))
    by compute_done.
  rewrite <- H in Hin. revert Hin. compute_done.
Qed.

(** C1 (amended).  For every button press whose token starts with
    [admin_cryptopay_], made by a user who is not in [admin_ids] and
    acknowledged by the platform: the saved messages and the list of
    subscribers are unchanged, the set of waiting users changes only in that
    the acting user is no longer in it (so it gains no entry), and the one
    call made after the acknowledgement is the edit that shows the refusal. *)
Theorem C1_non_operator_denied cfg env st u chat qd :
  Py.startswith "admin_cryptopay_" (default "" qd) = true →
  user_id u ∉ admin_ids cfg →
  acknowledged env →
  let r := run (callback_query_handler cfg u chat qd) env st in
  current_inline_message (final_state r) = current_inline_message st
  ∧ users_subs_list (final_state r) = users_subs_list st
  ∧ users_waitingcryptocheck (final_state r)
    = users_waitingcryptocheck st ∖ {[ user_id u ]}
  ∧ ∃ o, trace_of r = [Called (query_answer None false) None;
                       Called (query_edit_message_text text_no_rights) o].
Proof.
  intros Hpre Hna Hack r. subst r. rewrite callback_run by done.
  unfold route_callback. rewrite Hpre. unfold admin_callback.
  rewrite (is_admin_false _ _ Hna), andb_false_r. unfold_monad.
  unfold final_state, trace_of. cbn.
  destruct (after_clear_others u (default "" qd) st) as (Hc & _ & Hs).
  pose proof (after_clear_waiting u _ st
                (admin_prefix_not_checkcryptopay _ Hpre)) as Hw.
  destruct (env_raises env _ _); cbn; eauto 10.
Qed.

Lemma C1_witness :
  let r := run (callback_query_handler cfg0 alice 5 (Some "admin_cryptopay_YES:7"))
             env_ok (waiting_state 5) in
  current_inline_message (final_state r)
  = current_inline_message (waiting_state 5)
  ∧ users_subs_list (final_state r) = users_subs_list (waiting_state 5)
  ∧ users_waitingcryptocheck (final_state r)
    = users_waitingcryptocheck (waiting_state 5) ∖ {[ user_id alice ]}
  ∧ ∃ o, trace_of r = [Called (query_answer None false) None;
                       Called (query_edit_message_text text_no_rights) o].
Proof.
  apply (C1_non_operator_denied cfg0 env_ok (waiting_state 5) alice 5
           (Some "admin_cryptopay_YES:7"));
    first [reflexivity | compute_done].
Defined.

(** C2, as the specification states it, fails: the manager approves the
    user 7 and the acknowledgement of the press raises; the handler stops
    there, before the append, and 7 is not in [users_subs_list]. *)
Lemma C2_counterexample :
  let r := run (callback_query_handler cfg0 manager 1
                  (Some "admin_cryptopay_YES:7")) env_answer_fails
             initial_state in
  user_id manager ∈ admin_ids cfg0
  ∧ Py.split ":" "admin_cryptopay_YES:7" = ["admin_cryptopay_YES"; "7"]
  ∧ Py.endswith "_YES" "admin_cryptopay_YES" = true
  ∧ Py.int (env_int env_answer_fails) "7" = Some 7
  ∧ trace_of r = [Called (query_answer None false) (Some TelegramError)]
  ∧ (7 ∉ users_subs_list (final_state r)).
Proof.
  cbv zeta. split; [compute_done|]. split; [reflexivity|].
  split; [reflexivity|]. split; [reflexivity|]. split; [reflexivity|].
  change (users_subs_list _) with (@nil Z). apply not_elem_of_nil.
Qed.

(** C2 (amended).  For every approval by the manager (a token that starts
    with [admin_cryptopay_], splits at its colon into an action that ends
    with [_YES] and a text that [int()] reads as [n]) that the platform
    acknowledges, [n] is in [users_subs_list] when the handler is left,
    appended at its end, whether the calls that follow (the edit of the
    manager's message, the reading of the image, the delivery of the
    invitation) return or raise. *)
Theorem C2_approve_grants_membership cfg env st u chat qd action_part
    target_user_id n :
  Py.startswith "admin_cryptopay_" (default "" qd) = true →
  Py.split ":" (default "" qd) = [action_part; target_user_id] →
  Py.endswith "_YES" action_part = true →
  Py.int (env_int env) target_user_id = Some n →
  user_id u ∈ admin_ids cfg →
  acknowledged env →
  let r := run (callback_query_handler cfg u chat qd) env st in
  n ∈ users_subs_list (final_state r)
  ∧ users_subs_list (final_state r) = (users_subs_list st ++ [n])%list.
Proof.
  intros Hpre Hsplit Hyes Hint Hadm Hack r. subst r.
  rewrite (approve_appends cfg env st u chat qd action_part target_user_id n)
    by done.
  split; [|done]. apply elem_of_app. right. apply list_elem_of_here.
Qed.

Lemma C2_witness :
  let r := run (callback_query_handler cfg0 manager 1
                  (Some "admin_cryptopay_YES:7")) env_send_photo_fails
             initial_state in
  7 ∈ users_subs_list (final_state r)
  ∧ users_subs_list (final_state r) = (users_subs_list initial_state ++ [7])%list.
Proof.
  apply (C2_approve_grants_membership cfg0 env_send_photo_fails initial_state
           manager 1 (Some "admin_cryptopay_YES:7") "admin_cryptopay_YES" "7" 7);
    first [reflexivity | compute_done].
Defined.




(** C5, as the specification states it, fails: a user who waits for a
    receipt to be checked presses [siski_gopay] and the acknowledgement of
    the press raises; the handler stops before it drops the wait, and the
    user is still in [users_waitingcryptocheck]. *)
Lemma C5_counterexample :
  let r := run (callback_query_handler cfg0 alice 5 (Some "siski_gopay"))
             env_answer_fails (waiting_state 5) in
  String.eqb "siski_gopay" "siski_checkcryptopay" = false
  ∧ user_id alice ∈ users_waitingcryptocheck (waiting_state 5)
  ∧ trace_of r = [Called (query_answer None false) (Some TelegramError)]
  ∧ user_id alice ∈ users_waitingcryptocheck (final_state r).
Proof.
  cbv zeta. split; [reflexivity|]. split; [compute_done|].
  split; [reflexivity|]. compute_done.
Qed.

(** C5 (amended).  For every user and every button press the platform
    acknowledges whose token is not [siski_checkcryptopay], the user is not
    in [users_waitingcryptocheck] when the handler is left, whichever
    branch the press takes and whether its later calls return or raise. *)
Theorem C5_navigation_clears_flag cfg env st u chat qd :
  String.eqb (default "" qd) "siski_checkcryptopay" = false →
  acknowledged env →
  user_id u ∉ users_waitingcryptocheck
    (final_state (run (callback_query_handler cfg u chat qd) env st)).
Proof.
  intros Hne Hack. rewrite callback_run by done. unfold final_state.
  rewrite (route_callback_same_waiting cfg u chat _ Hne env). cbn.
  rewrite after_clear_waiting by done.
  rewrite elem_of_difference, elem_of_singleton. tauto.
Qed.

Lemma C5_witness :
  user_id alice ∉ users_waitingcryptocheck
    (final_state (run (callback_query_handler cfg0 alice 5 (Some "siski_gopay"))
                    env_ok (waiting_state 5))).
Proof. apply C5_navigation_clears_flag; reflexivity. Defined.

(** C6, as the specification states it, fails: a user who waits for a
    receipt to be checked presses a button whose token the handler has no
    branch for; the press is acknowledged and nothing is shown, but the
    user is taken out of [users_waitingcryptocheck]. *)
Lemma C6_counterexample :
  let r := run (callback_query_handler cfg0 alice 5 (Some "siski_old_button"))
             env_ok (waiting_state 5) in
  recognized "siski_old_button" = false
  ∧ user_id alice ∈ users_waitingcryptocheck (waiting_state 5)
  ∧ (user_id alice ∉ users_waitingcryptocheck (final_state r))
  ∧ final_state r ≠ waiting_state 5.
Proof.
  cbv zeta. split; [reflexivity|]. split; [compute_done|]. split; [compute_done|].
  intros H. apply (f_equal users_waitingcryptocheck) in H.
  assert (Hin : user_id alice ∈ users_waitingcryptocheck (waiting_state 5))
    by compute_done.
  rewrite <- H in Hin. revert Hin. compute_done.
Qed.

(** C6 (amended).  For every acknowledged button press whose token the
    handler has no branch for: the saved messages and the list of
    subscribers are unchanged, the set of waiting users changes only in that
    the acting user is no longer in it, and the only calls are the two
    acknowledgements, so nothing is shown to the user. *)
Theorem C6_unrecognized_token cfg env st u chat qd :
  recognized (default "" qd) = false →
  acknowledged env →
  let r := run (callback_query_handler cfg u chat qd) env st in
  current_inline_message (final_state r) = current_inline_message st
  ∧ users_subs_list (final_state r) = users_subs_list st
  ∧ users_waitingcryptocheck (final_state r)
    = users_waitingcryptocheck st ∖ {[ user_id u ]}
  ∧ ∃ o, trace_of r = [Called (query_answer None false) None;
                       Called (query_answer None false) o].
Proof.
  intros Hrec Hack r. subst r. unfold recognized in Hrec.
  repeat (apply orb_false_elim in Hrec as [Hrec ?]).
  rewrite callback_run by done. unfold route_callback.
  repeat match goal with H : _ = false |- _ => rewrite H end.
  destruct (after_clear_others u (default "" qd) st) as (Hc & _ & Hs).
  pose proof (after_clear_waiting u (default "" qd) st ltac:(done)) as Hw.
  unfold final_state, trace_of. unfold_monad. cbn.
  case_calls; eauto 10.
Qed.

Lemma C6_witness :
  let r := run (callback_query_handler cfg0 alice 5 (Some "siski_old_button"))
             env_ok (waiting_state 5) in
  current_inline_message (final_state r)
  = current_inline_message (waiting_state 5)
  ∧ users_subs_list (final_state r) = users_subs_list (waiting_state 5)
  ∧ users_waitingcryptocheck (final_state r)
    = users_waitingcryptocheck (waiting_state 5) ∖ {[ user_id alice ]}
  ∧ ∃ o, trace_of r = [Called (query_answer None false) None;
                       Called (query_answer None false) o].
Proof.
  apply (C6_unrecognized_token cfg0 env_ok (waiting_state 5) alice 5
           (Some "siski_old_button")); reflexivity.
Defined.

(** C7, as the specification states it, fails: a user without a saved
    message presses [siski_gostarpay] and the acknowledgement of the press
    raises; the handler stops there and the alert is never asked for. *)
Lemma C7_counterexample :
  let r := run (callback_query_handler cfg0 alice 5 (Some "siski_gostarpay"))
             env_answer_fails initial_state in
  current_inline_message initial_state !! user_id alice = None
  ∧ trace_of r = [Called (query_answer None false) (Some TelegramError)]
  ∧ ¬ issued no_source_alert (trace_of r).
Proof.
  cbv zeta. split; [reflexivity|]. split; [reflexivity|].
  intros [o Hin].
  change (trace_of _) with
    [Called (query_answer None false) (Some TelegramError)] in Hin.
  not_in_trace Hin.
Qed.

(** C7 (amended).  For every user who presses [siski_gostarpay], the press
    acknowledged, while [current_inline_message] has no message for the
    user: the one call after the acknowledgement asks the platform to show,
    as an alert, the text that the source message for the invoice was not
    found, and the handler returns exactly when that call does; no invoice
    is issued; the saved messages and the subscribers are unchanged.
    Whether the platform displays an alert sent as a second answer to the
    same press is not decided by the code. *)
Theorem C7_native_checkout_without_message cfg env st u chat :
  current_inline_message st !! user_id u = None →
  acknowledged env →
  let r := run (callback_query_handler cfg u chat (Some "siski_gostarpay")) env st in
  let o := env_raises env [Called (query_answer None false) None]
             no_source_alert in
  trace_of r = [Called (query_answer None false) None; Called no_source_alert o]
  ∧ fst r = match o with None => Returned tt | Some e => Raised e end
  ∧ (∀ c o', Called c o' ∈ trace_of r → is_invoice c = false)
  ∧ current_inline_message (final_state r) = current_inline_message st
  ∧ users_subs_list (final_state r) = users_subs_list st.
Proof.
  intros Hnone Hack r o. subst r o. rewrite callback_run by done.
  destruct (after_clear_others u "siski_gostarpay" st) as (Hc & _ & Hs).
  change (route_callback cfg u chat _) with (gostarpay_callback cfg u).
  unfold gostarpay_callback, final_state, trace_of, no_source_alert,
    text_no_source_message.
  unfold_monad. cbn.
  rewrite Hc, Hnone. cbn. case_calls.
  all: split; [reflexivity|]; split; [reflexivity|]; split; [|done].
  all: intros c o' Hin; set_unfold in Hin;
       destruct Hin as [Hin|[Hin|[]]]; by injection Hin as -> _.
Qed.

Lemma C7_witness :
  let r := run (callback_query_handler cfg0 alice 5 (Some "siski_gostarpay"))
             env_ok initial_state in
  let o := env_raises env_ok [Called (query_answer None false) None]
             no_source_alert in
  trace_of r = [Called (query_answer None false) None; Called no_source_alert o]
  ∧ fst r = match o with None => Returned tt | Some e => Raised e end
  ∧ (∀ c o', Called c o' ∈ trace_of r → is_invoice c = false)
  ∧ current_inline_message (final_state r) = current_inline_message initial_state
  ∧ users_subs_list (final_state r) = users_subs_list initial_state.
Proof.
  apply (C7_native_checkout_without_message cfg0 env_ok initial_state alice 5);
    reflexivity.
Defined.

(** C8 fails on the code in two ways, both evaluated here.  First, a
    payment is confirmed for the sample user while the image of the
    invitation cannot be read: the handler logs the exception, nothing is
    delivered and the payer is not in [users_subs_list], whereas the
    approval by the manager appends before it delivers.  Second, a payment
    is confirmed after [/start] and [siski_gostarpay], every call
    returning: the invitation is sent and the payer is appended, but the
    call that clears the caption is not made, since [users_query] is never
    written. *)
Theorem C8_payment_fulfilment_gaps :
  let upd := MessageUpdate alice 5 (payment_message 5) in
  let r1 := run (process_update cfg0 upd) env_no_files initial_state in
  let r2 := run (process_update cfg0 upd) env_ok state_after_checkout in
  (trace_of r1 =
     [Called (aiofiles_read "photos/photo_thanks.JPG") (Some FileNotFoundError);
      LoggedException "Ошибка в successful_payment_handler"]
   ∧ (user_id alice ∉ users_subs_list (final_state r1))
   ∧ final_state r1 = initial_state)
  ∧ (reachable cfg0 state_after_checkout
     ∧ trace_of r2 =
         [Called (aiofiles_read "photos/photo_thanks.JPG") None;
          Called (reward_call cfg0 5) None]
     ∧ users_subs_list (final_state r2) = [user_id alice]
     ∧ ¬ issued (saved_query_edit_message_caption " ") (trace_of r2)).
Proof.
  cbv zeta. split.
  - split; [reflexivity|]. split; [|reflexivity].
    change (users_subs_list _) with (@nil Z). apply not_elem_of_nil.
  - split; [do 2 apply reachable_step; apply reachable_initial|].
    split; [reflexivity|]. split; [reflexivity|].
    intros [o Hin].
    change (trace_of _) with
      [Called (aiofiles_read "photos/photo_thanks.JPG") None;
       Called (reward_call cfg0 5) None] in Hin.
    not_in_trace Hin.
Qed.

(** C9 fails on the code: the sample user waits for a receipt to be checked
    and sends a text.  The message has no image, so it is not given to
    [photo_message_handler] but to [fallback_message_handler]: the one call
    is the message that the command is wrong, and the reply that asks for
    the receipt again is not made.  The dictionaries are unchanged. *)
Theorem C9_text_while_waiting :
  let upd := MessageUpdate alice 5 (text_message 5 "hello") in
  let r := run (process_update cfg0 upd) env_ok (waiting_state 5) in
  user_id alice ∈ users_waitingcryptocheck (waiting_state 5)
  ∧ photo (text_message 5 "hello") = []
  ∧ trace_of r =
      [Called (bot_send_message 5 text_wrong_command
                 (Some [[CallbackButton "❣" "start"]])) None]
  ∧ (¬ issued (message_reply_text text_receipt_again) (trace_of r))
  ∧ final_state r = waiting_state 5.
Proof.
  cbv zeta. split; [compute_done|]. split; [done|]. split; [reflexivity|].
  split; [|reflexivity].
  by apply text_message_never_asks_receipt_again.
Qed.

(** C10, as the specification states it, fails: the manager approves a user
    who is already in [users_subs_list]; the list gets a second entry for
    the user, so it has changed and it has a duplicate. *)
Lemma C10_counterexample :
  let st := subs_append 7 initial_state in
  let r := run (callback_query_handler cfg0 manager 1
                  (Some "admin_cryptopay_YES:7")) env_ok st in
  7 ∈ users_subs_list st
  ∧ users_subs_list (final_state r) = [7; 7]
  ∧ users_subs_list (final_state r) ≠ users_subs_list st
  ∧ ¬ NoDup (users_subs_list (final_state r)).
Proof.
  cbv zeta. split; [apply list_elem_of_here|].
  assert (E : users_subs_list
                (final_state
                   (run (callback_query_handler cfg0 manager 1
                           (Some "admin_cryptopay_YES:7")) env_ok
                      (subs_append 7 initial_state))) = [7; 7])
    by (vm_compute; reflexivity).
  rewrite E. split; [reflexivity|]. split.
  - intros H. apply (f_equal length) in H. discriminate H.
  - intros Hnd. apply NoDup_cons_1_1 in Hnd. apply Hnd, list_elem_of_here.
Qed.

(** C10 (amended).  [users_subs_list] is a list.  A grant to a user [n]
    who is already in it, by an acknowledged approval of the manager whose
    token ends with a text that [int()] reads as [n], or by a confirmed
    payment whose invitation is read and sent, appends one more entry for
    [n]: the users in the list are the same as before, and [n] now occurs
    more than once. *)
Theorem C10_repeated_grant_appends cfg env st n :
  n ∈ users_subs_list st →
  (∀ u chat qd action_part target_user_id,
     Py.startswith "admin_cryptopay_" (default "" qd) = true →
     Py.split ":" (default "" qd) = [action_part; target_user_id] →
     Py.endswith "_YES" action_part = true →
     Py.int (env_int env) target_user_id = Some n →
     user_id u ∈ admin_ids cfg →
     acknowledged env →
     repeated_grant n st
       (final_state (run (callback_query_handler cfg u chat qd) env st)))
  ∧ (∀ u chat,
       user_id u = n →
       env_raises env [] (aiofiles_read (photos "photo_thanks.JPG")) = None →
       env_raises env [Called (aiofiles_read (photos "photo_thanks.JPG")) None]
         (reward_call cfg chat) = None →
       repeated_grant n st
         (final_state (run (successful_payment_handler cfg u chat) env st))).
Proof.
  intros Hin. split.
  - intros. apply append_member_repeated; [done|]. by eapply approve_appends.
  - intros u chat <- Hread Hsend. apply append_member_repeated; [done|].
    by apply payment_delivered.
Qed.

Lemma C10_witness :
  let st := subs_append 7 initial_state in
  repeated_grant 7 st
    (final_state (run (callback_query_handler cfg0 manager 1
                         (Some "admin_cryptopay_YES:7")) env_ok st))
  ∧ repeated_grant 7 st
      (final_state (run (successful_payment_handler cfg0 bob 7) env_ok st)).
Proof.
  cbv zeta.
  destruct (C10_repeated_grant_appends cfg0 env_ok (subs_append 7 initial_state) 7
              ltac:(apply list_elem_of_here)) as [Happrove Hpay].
  split.
  - apply (Happrove manager 1 (Some "admin_cryptopay_YES:7")
             "admin_cryptopay_YES" "7"); first [reflexivity | compute_done].
  - apply (Hpay bob 7); reflexivity.
Defined.

(* ===================================================================== *)
(** * Further properties of the handlers *)
(* ===================================================================== *)

#[local] Instance entries_kept_po v : PreOrder (entries_kept v).
Proof.
  split.
  - intros s. split; reflexivity.
  - intros a b c [H1 H2] [H3 H4]. split; [by rewrite H3 | congruence].
Qed.

(** A relation kept by the updates of the acting user's entries, and by an
    append to the list of subscribers, is kept by the delivery. *)
Lemma process_update_respects_acting (R : state → state → Prop) `{!PreOrder R}
    cfg upd :
  (∀ st, R st (waiting_discard (acting_user upd) st)) →
  (∀ st, R st (waiting_add (acting_user upd) st)) →
  (∀ st m, R st (store_inline_message (acting_user upd) m st)) →
  (∀ st n, R st (subs_append n st)) →
  respects R (process_update cfg upd).
Proof.
  intros H1 H2 H3 H4.
  destruct upd as [u chat m|u chat m|u chat qd|u qid amount]; cbn in H1, H2, H3.
  - rewrite process_update_message.
    unfold start_handler, successful_payment_handler, photo_message_handler,
      fallback_message_handler.
    respects_auto; auto.
  - rewrite process_update_edited.
    unfold start_handler, successful_payment_handler, fallback_message_handler.
    cbv beta iota. respects_auto; auto.
  - change (respects R (callback_query_handler cfg u chat qd)).
    unfold callback_query_handler, clear_stale_waiting, route_callback,
      admin_callback, gostarpay_callback, start_handler.
    respects_auto; auto.
  - change (respects R (precheckout_handler qid amount)).
    unfold precheckout_handler. respects_auto.
Qed.

(** X1.  [start_handler] when the image of the greeting cannot be read: if
    the read raises [FileNotFoundError], the miss is logged and the greeting
    goes out as a text with the same button, the handler returning exactly
    when that message is sent; if the read raises anything else, the
    exception leaves the handler and no greeting is sent. *)
Theorem start_greeting_fallback u chat_id update_message env st e :
  env_raises env [] (aiofiles_read (photos "photo_hello.JPG")) = Some e →
  let r := run (start_handler u chat_id update_message) env st in
  (e = FileNotFoundError →
   ∃ o, trace_of r =
          [Called (aiofiles_read (photos "photo_hello.JPG")) (Some e);
           LoggedException "photo_hello.JPG not found";
           Called (bot_send_message chat_id (text_hello u) (Some hello_keyboard)) o]
        ∧ fst r = match o with None => Returned tt | Some e' => Raised e' end)
  ∧ (e ≠ FileNotFoundError →
     fst r = Raised e
     ∧ trace_of r = [Called (aiofiles_read (photos "photo_hello.JPG")) (Some e)]).
Proof.
  intros Hread r. subst r.
  unfold start_handler, run, trace_of, hello_keyboard.
  destruct update_message as [m|]; unfold_monad; cbn; rewrite Hread; cbn.
  all: destruct e; cbn; (split; [intros He | intros He]); try done.
  all: case_calls; eauto.
Qed.

Lemma start_greeting_fallback_witness :
  let r := run (start_handler alice 5 None) env_no_files initial_state in
  (FileNotFoundError = FileNotFoundError →
   ∃ o, trace_of r =
          [Called (aiofiles_read (photos "photo_hello.JPG"))
             (Some FileNotFoundError);
           LoggedException "photo_hello.JPG not found";
           Called (bot_send_message 5 (text_hello alice) (Some hello_keyboard)) o]
        ∧ fst r = match o with None => Returned tt | Some e' => Raised e' end)
  ∧ (FileNotFoundError ≠ FileNotFoundError →
     fst r = Raised FileNotFoundError
     ∧ trace_of r = [Called (aiofiles_read (photos "photo_hello.JPG"))
                       (Some FileNotFoundError)]).
Proof.
  apply (start_greeting_fallback alice 5 None env_no_files initial_state
           FileNotFoundError).
  reflexivity.
Defined.

(** X2.  A new message that opens with [/start] is given to
    [start_handler] whatever else it carries and whatever the sender waits
    for, and it is saved as the sender's message even when every later call
    raises; no other entry of the dictionaries changes.  An edited message
    that opens with [/start] is given to [start_handler] too, but there
    [update.message] is [None]: nothing is saved and the dictionaries are
    unchanged. *)
Theorem start_command_records_message cfg env st u chat_id m :
  bot_command m = Some "start" →
  step cfg env st (MessageUpdate u chat_id m)
  = store_inline_message (user_id u) m st
  ∧ current_inline_message (step cfg env st (MessageUpdate u chat_id m))
      !! user_id u = Some m
  ∧ step cfg env st (EditedMessageUpdate u chat_id m) = st.
Proof.
  intros Hcmd.
  assert (Hstep : step cfg env st (MessageUpdate u chat_id m)
                  = store_inline_message (user_id u) m st).
  { unfold step. rewrite process_update_message.
    rewrite bool_decide_eq_true_2 by done.
    unfold start_handler, run, final_state. unfold_monad. cbn.
    case_calls; reflexivity. }
  split; [exact Hstep|]. split.
  - rewrite Hstep. cbn. apply lookup_insert_eq.
  - unfold step. rewrite process_update_edited.
    rewrite bool_decide_eq_true_2 by done.
    unfold start_handler, run, final_state. unfold_monad. cbn.
    case_calls; reflexivity.
Qed.

Lemma start_command_records_message_witness :
  step cfg0 env_all_fail (waiting_state 5) (MessageUpdate alice 5 (start_message 5))
  = store_inline_message (user_id alice) (start_message 5) (waiting_state 5)
  ∧ current_inline_message
      (step cfg0 env_all_fail (waiting_state 5)
         (MessageUpdate alice 5 (start_message 5)))
      !! user_id alice = Some (start_message 5)
  ∧ step cfg0 env_all_fail (waiting_state 5)
      (EditedMessageUpdate alice 5 (start_message 5)) = waiting_state 5.
Proof.
  apply (start_command_records_message cfg0 env_all_fail (waiting_state 5)
           alice 5 (start_message 5)).
  reflexivity.
Defined.

(** X3.  Who passes the test of the branch [admin_cryptopay_]: exactly the
    user whose id is [MANAGER_ID], and nobody when [MANAGER_ID] is 0 (the
    value taken when the variable is not set). *)
Theorem is_admin_manager_only cfg u :
  is_admin cfg u = true ↔ user_id u = MANAGER_ID cfg ∧ MANAGER_ID cfg ≠ 0%Z.
Proof.
  rewrite is_admin_spec. unfold admin_ids.
  case_bool_decide as Hm.
  - rewrite elem_of_singleton. tauto.
  - rewrite elem_of_empty. tauto.
Qed.

(** X4.  A button press by a user who is not the manager never changes the
    list of subscribers, whatever the token and whatever the calls do. *)
Theorem non_operator_never_changes_subscribers cfg env st u chat qd :
  user_id u ∉ admin_ids cfg →
  users_subs_list (final_state (run (callback_query_handler cfg u chat qd) env st))
  = users_subs_list st.
Proof.
  intros Hna. unfold final_state, run.
  cut (respects same_subscribers (callback_query_handler cfg u chat qd));
    [intros H; apply H|].
  unfold callback_query_handler, clear_stale_waiting, route_callback,
    admin_callback.
  rewrite (is_admin_false _ _ Hna), andb_false_r.
  unfold gostarpay_callback, start_handler.
  respects_auto; reflexivity.
Qed.

Lemma non_operator_never_changes_subscribers_witness :
  users_subs_list
    (final_state (run (callback_query_handler cfg0 alice 5
                         (Some "admin_cryptopay_YES:5")) env_ok initial_state))
  = users_subs_list initial_state.
Proof.
  apply (non_operator_never_changes_subscribers cfg0 env_ok initial_state alice 5).
  compute_done.
Defined.

(** X5.  An approval whose token carries, after the colon, a text that
    [int()] refuses: [int()] raises [ValueError] before the append, the
    exception leaves the handler, the list of subscribers is unchanged and
    no call is made after the acknowledgement, so the manager sees
    nothing. *)
Theorem approve_with_bad_id_raises cfg env st u chat qd action_part
    target_user_id :
  Py.startswith "admin_cryptopay_" (default "" qd) = true →
  Py.split ":" (default "" qd) = [action_part; target_user_id] →
  Py.endswith "_YES" action_part = true →
  Py.int (env_int env) target_user_id = None →
  user_id u ∈ admin_ids cfg →
  acknowledged env →
  let r := run (callback_query_handler cfg u chat qd) env st in
  fst r = Raised ValueError
  ∧ trace_of r = [acked]
  ∧ users_subs_list (final_state r) = users_subs_list st.
Proof.
  intros Hpre Hsplit Hyes Hint Hadm Hack r. subst r.
  rewrite callback_run by done.
  unfold route_callback. rewrite Hpre. unfold admin_callback.
  rewrite Hsplit. cbn [length nth Nat.eqb andb].
  apply is_admin_spec in Hadm. rewrite Hadm, Hyes.
  destruct (after_clear_others u (default "" qd) st) as (_ & _ & Hs).
  unfold final_state, trace_of. unfold_monad. cbn. rewrite Hint. cbn. done.
Qed.

Lemma approve_with_bad_id_raises_witness :
  let r := run (callback_query_handler cfg0 manager 1
                  (Some "admin_cryptopay_YES:abc")) env_ok initial_state in
  fst r = Raised ValueError
  ∧ trace_of r = [acked]
  ∧ users_subs_list (final_state r) = users_subs_list initial_state.
Proof.
  apply (approve_with_bad_id_raises cfg0 env_ok initial_state manager 1
           (Some "admin_cryptopay_YES:abc") "admin_cryptopay_YES" "abc");
    first [reflexivity | compute_done].
Defined.

(** X6.  A token that starts with [admin_cryptopay_] and does not have
    exactly one colon is refused for every user, the manager too: the one
    call after the acknowledgement is the edit that shows the refusal, and
    the list of subscribers is unchanged. *)
Theorem malformed_admin_token_refused cfg env st u chat qd :
  Py.startswith "admin_cryptopay_" (default "" qd) = true →
  length (Py.split ":" (default "" qd)) ≠ 2%nat →
  acknowledged env →
  let r := run (callback_query_handler cfg u chat qd) env st in
  (∃ o, trace_of r = [acked; Called (query_edit_message_text text_no_rights) o])
  ∧ users_subs_list (final_state r) = users_subs_list st.
Proof.
  intros Hpre Hlen Hack r. subst r. rewrite callback_run by done.
  unfold route_callback. rewrite Hpre. unfold admin_callback.
  apply Nat.eqb_neq in Hlen. rewrite Hlen. cbn [andb].
  destruct (after_clear_others u (default "" qd) st) as (_ & _ & Hs).
  unfold final_state, trace_of, acked. unfold_monad. cbn.
  case_calls; eauto.
Qed.

Lemma malformed_admin_token_refused_witness :
  let r := run (callback_query_handler cfg0 manager 1
                  (Some "admin_cryptopay_YES:7:8")) env_ok initial_state in
  (∃ o, trace_of r = [acked; Called (query_edit_message_text text_no_rights) o])
  ∧ users_subs_list (final_state r) = users_subs_list initial_state.
Proof.
  apply (malformed_admin_token_refused cfg0 env_ok initial_state manager 1
           (Some "admin_cryptopay_YES:7:8")); first [reflexivity | by vm_compute].
Defined.

(** X7.  A refusal by the manager (one colon, an action that ends with
    [_NO], after the colon a text that [int()] reads as [n]): the list of
    subscribers is unchanged,
    and when the edit of the manager's message returns, the user named in
    the token is sent the message with the one button that shows the
    deposit address again. *)
Theorem operator_reject_notifies_target cfg env st u chat qd action_part
    target_user_id n :
  Py.startswith "admin_cryptopay_" (default "" qd) = true →
  Py.split ":" (default "" qd) = [action_part; target_user_id] →
  Py.endswith "_YES" action_part = false →
  Py.endswith "_NO" action_part = true →
  Py.int (env_int env) target_user_id = Some n →
  user_id u ∈ admin_ids cfg →
  acknowledged env →
  let r := run (callback_query_handler cfg u chat qd) env st in
  users_subs_list (final_state r) = users_subs_list st
  ∧ (env_raises env [acked]
       (query_edit_message_caption (text_not_added target_user_id) None) = None →
     issued (bot_send_message n text_dont_trick (Some retry_keyboard))
       (trace_of r)).
Proof.
  intros Hpre Hsplit Hyes Hno Hint Hadm Hack r. subst r.
  rewrite callback_run by done.
  unfold route_callback. rewrite Hpre. unfold admin_callback.
  rewrite Hsplit. cbn [length nth Nat.eqb andb].
  apply is_admin_spec in Hadm. rewrite Hadm, Hyes, Hno.
  destruct (after_clear_others u (default "" qd) st) as (_ & _ & Hs).
  unfold final_state, trace_of, issued, acked, retry_keyboard. unfold_monad. cbn.
  case_calls; rewrite ?Hint; cbn; case_calls;
    (split; [done|]); intros Hedit; try discriminate;
    eexists; in_trace.
Qed.

Lemma operator_reject_notifies_target_witness :
  let r := run (callback_query_handler cfg0 manager 1
                  (Some "admin_cryptopay_NO:7")) env_ok
             (subs_append 3 initial_state) in
  users_subs_list (final_state r) = users_subs_list (subs_append 3 initial_state)
  ∧ (env_raises env_ok [acked]
       (query_edit_message_caption (text_not_added "7") None) = None →
     issued (bot_send_message 7 text_dont_trick (Some retry_keyboard))
       (trace_of r)).
Proof.
  apply (operator_reject_notifies_target cfg0 env_ok (subs_append 3 initial_state)
           manager 1 (Some "admin_cryptopay_NO:7") "admin_cryptopay_NO" "7" 7);
    first [reflexivity | compute_done].
Defined.

(** X8.  A token of the manager with one colon whose action ends neither
    with [_YES] nor with [_NO]: nothing is done after the acknowledgement,
    no call and no message, and the handler returns. *)
Theorem operator_unknown_action_silent cfg env st u chat qd action_part
    target_user_id :
  Py.startswith "admin_cryptopay_" (default "" qd) = true →
  Py.split ":" (default "" qd) = [action_part; target_user_id] →
  Py.endswith "_YES" action_part = false →
  Py.endswith "_NO" action_part = false →
  user_id u ∈ admin_ids cfg →
  acknowledged env →
  let r := run (callback_query_handler cfg u chat qd) env st in
  fst r = Returned tt
  ∧ trace_of r = [acked]
  ∧ users_subs_list (final_state r) = users_subs_list st.
Proof.
  intros Hpre Hsplit Hyes Hno Hadm Hack r. subst r.
  rewrite callback_run by done.
  unfold route_callback. rewrite Hpre. unfold admin_callback.
  rewrite Hsplit. cbn [length nth Nat.eqb andb].
  apply is_admin_spec in Hadm. rewrite Hadm, Hyes, Hno.
  destruct (after_clear_others u (default "" qd) st) as (_ & _ & Hs).
  unfold final_state, trace_of. unfold_monad. cbn. done.
Qed.

Lemma operator_unknown_action_silent_witness :
  let r := run (callback_query_handler cfg0 manager 1
                  (Some "admin_cryptopay_LATER:7")) env_ok initial_state in
  fst r = Returned tt
  ∧ trace_of r = [acked]
  ∧ users_subs_list (final_state r) = users_subs_list initial_state.
Proof.
  apply (operator_unknown_action_silent cfg0 env_ok initial_state manager 1
           (Some "admin_cryptopay_LATER:7") "admin_cryptopay_LATER" "7");
    first [reflexivity | compute_done].
Defined.

(** X9.  The press of [siski_checkcryptopay], acknowledged: the user is put
    in [users_waitingcryptocheck] when the edit that asks for the receipt
    returns, and only then; when that edit raises, the exception leaves the
    handler and the dictionaries are as before. *)
Theorem confirm_paid_sets_flag cfg env st u chat :
  acknowledged env →
  let r := run (callback_query_handler cfg u chat (Some "siski_checkcryptopay"))
             env st in
  (env_raises env [acked] ask_receipt_call = None →
   final_state r = waiting_add (user_id u) st
   ∧ user_id u ∈ users_waitingcryptocheck (final_state r)
   ∧ fst r = Returned tt)
  ∧ (∀ e, env_raises env [acked] ask_receipt_call = Some e →
     final_state r = st ∧ fst r = Raised e).
Proof.
  intros Hack r. subst r. rewrite callback_run by done.
  change (after_clear u (default "" (Some "siski_checkcryptopay")) st) with st.
  change (route_callback cfg u chat _) with
    (_ ← do_call ask_receipt_call; modify (waiting_add (user_id u))).
  unfold final_state, acked, ask_receipt_call. unfold_monad. cbn.
  split.
  - intros ->. cbn. split; [done|]. split; [|done].
    apply elem_of_union_l, elem_of_singleton. reflexivity.
  - intros e ->. done.
Qed.

Lemma confirm_paid_sets_flag_witness :
  let r := run (callback_query_handler cfg0 alice 5 (Some "siski_checkcryptopay"))
             env_ok initial_state in
  (env_raises env_ok [acked] ask_receipt_call = None →
   final_state r = waiting_add (user_id alice) initial_state
   ∧ user_id alice ∈ users_waitingcryptocheck (final_state r)
   ∧ fst r = Returned tt)
  ∧ (∀ e, env_raises env_ok [acked] ask_receipt_call = Some e →
     final_state r = initial_state ∧ fst r = Raised e).
Proof.
  apply (confirm_paid_sets_flag cfg0 env_ok initial_state alice 5). reflexivity.
Defined.

(** X10.  The press of [siski_gostarpay] by a user with a saved message [m],
    acknowledged, once the caption is replaced: the invoice is issued as a
    reply to [m], one price of 1500 in XTR with the payload [siski]; the
    handler returns even when issuing the invoice raises (the exception is
    logged), and the saved messages and the subscribers are unchanged. *)
Theorem native_checkout_issues_invoice cfg env st u chat m :
  current_inline_message st !! user_id u = Some m →
  acknowledged env →
  env_raises env [acked] (query_edit_message_caption "💕" None) = None →
  let r := run (callback_query_handler cfg u chat (Some "siski_gostarpay")) env st in
  issued (invoice_call cfg m) (trace_of r)
  ∧ fst r = Returned tt
  ∧ current_inline_message (final_state r) = current_inline_message st
  ∧ users_subs_list (final_state r) = users_subs_list st.
Proof.
  intros Hm Hack Hedit r. subst r. rewrite callback_run by done.
  destruct (after_clear_others u "siski_gostarpay" st) as (Hc & _ & Hs).
  change (route_callback cfg u chat _) with (gostarpay_callback cfg u).
  unfold gostarpay_callback, final_state, trace_of, issued, invoice_call, acked
    in *.
  unfold_monad. cbn. rewrite Hc, Hm. cbn. rewrite Hedit. cbn.
  case_calls; (split; [eexists; in_trace | done]).
Qed.

Lemma native_checkout_issues_invoice_witness :
  let st := store_inline_message 5 (start_message 5) initial_state in
  let r := run (callback_query_handler cfg0 alice 5 (Some "siski_gostarpay"))
             env_ok st in
  issued (invoice_call cfg0 (start_message 5)) (trace_of r)
  ∧ fst r = Returned tt
  ∧ current_inline_message (final_state r) = current_inline_message st
  ∧ users_subs_list (final_state r) = users_subs_list st.
Proof.
  apply (native_checkout_issues_invoice cfg0 env_ok
           (store_inline_message 5 (start_message 5) initial_state) alice 5
           (start_message 5)); reflexivity.
Defined.

(** X11.  The press of [siski_gocryptopayagain], acknowledged: when the
    image is read and the photo is sent, the message the platform returns
    is saved as the user's message; when the read or the send raises,
    nothing is saved and the deposit address goes out as a text with the
    same buttons. *)
Theorem retry_crypto_records_sent cfg env st u chat :
  acknowledged env →
  let read := aiofiles_read (photos "photo_payments.JPG") in
  let r := run (callback_query_handler cfg u chat (Some "siski_gocryptopayagain"))
             env st in
  (env_raises env [acked] read = None →
   env_raises env [acked; Called read None] (deposit_photo_call u) = None →
   current_inline_message (final_state r) !! user_id u
   = Some (env_sent env [acked; Called read None] (deposit_photo_call u))
   ∧ fst r = Returned tt)
  ∧ (env_raises env [acked] read ≠ None
     ∨ env_raises env [acked; Called read None] (deposit_photo_call u) ≠ None →
     current_inline_message (final_state r) = current_inline_message st
     ∧ issued (bot_send_message (user_id u) text_deposit_address
                 (Some crypto_keyboard)) (trace_of r)).
Proof.
  intros Hack read r. subst read r. rewrite callback_run by done.
  destruct (after_clear_others u "siski_gocryptopayagain" st) as (Hc & _ & Hs).
  change (route_callback cfg u chat _) with
    (try_except
       (photo_buf ← read_image_bytes (photos "photo_payments.JPG");
        sent ← do_call (bot_send_photo (user_id u) photo_buf text_deposit_address
                          (Some crypto_keyboard));
        modify (store_inline_message (user_id u) sent))
       Exception
       (_ ← do_call (bot_send_message (user_id u) text_deposit_address
                       (Some crypto_keyboard));
        mret tt)).
  unfold final_state, trace_of, issued, acked, deposit_photo_call.
  unfold_monad. cbn. split.
  - intros -> . cbn. intros ->. cbn. split; [apply lookup_insert_eq | done].
  - intros Hfail.
    destruct (env_raises env [_] _) eqn:Hread; cbn.
    + case_calls; (split; [done | eexists; in_trace]).
    + destruct (env_raises env [_; _] (bot_send_photo _ _ _ _)) eqn:Hsend; cbn.
      * case_calls; (split; [done | eexists; in_trace]).
      * destruct Hfail; done.
Qed.

Lemma retry_crypto_records_sent_witness :
  let read := aiofiles_read (photos "photo_payments.JPG") in
  let r := run (callback_query_handler cfg0 alice 5
                  (Some "siski_gocryptopayagain")) env_ok initial_state in
  (env_raises env_ok [acked] read = None →
   env_raises env_ok [acked; Called read None] (deposit_photo_call alice) = None →
   current_inline_message (final_state r) !! user_id alice
   = Some (env_sent env_ok [acked; Called read None] (deposit_photo_call alice))
   ∧ fst r = Returned tt)
  ∧ (env_raises env_ok [acked] read ≠ None
     ∨ env_raises env_ok [acked; Called read None] (deposit_photo_call alice)
       ≠ None →
     current_inline_message (final_state r)
     = current_inline_message initial_state
     ∧ issued (bot_send_message (user_id alice) text_deposit_address
                 (Some crypto_keyboard)) (trace_of r)).
Proof.
  apply (retry_crypto_records_sent cfg0 env_ok initial_state alice 5).
  reflexivity.
Defined.

(** X12.  The press of [siski_gopay], acknowledged: when the image of the
    menu cannot be read, or the edit of the media raises, the two ways to
    pay are still shown, by an edit of the caption with the same buttons;
    the dictionaries other than the user's wait are unchanged. *)
Theorem payment_menu_fallback cfg env st u chat :
  acknowledged env →
  let read := aiofiles_read (photos "photo_payments.JPG") in
  let media := query_edit_message_media (Buffer (photos "photo_payments.JPG"))
                 text_choose_payment (Some payment_menu_keyboard) in
  let r := run (callback_query_handler cfg u chat (Some "siski_gopay")) env st in
  (env_raises env [acked] read ≠ None
   ∨ env_raises env [acked; Called read None] media ≠ None →
   issued (query_edit_message_caption text_choose_payment
             (Some payment_menu_keyboard)) (trace_of r))
  ∧ (env_raises env [acked] read = None →
     env_raises env [acked; Called read None] media = None →
     trace_of r = [acked; Called read None; Called media None]
     ∧ fst r = Returned tt)
  ∧ current_inline_message (final_state r) = current_inline_message st
  ∧ users_subs_list (final_state r) = users_subs_list st.
Proof.
  intros Hack read media r. subst read media r. rewrite callback_run by done.
  destruct (after_clear_others u "siski_gopay" st) as (Hc & _ & Hs).
  change (route_callback cfg u chat _) with
    (try_except
       (photo_buf ← read_image_bytes (photos "photo_payments.JPG");
        _ ← do_call (query_edit_message_media photo_buf text_choose_payment
                       (Some payment_menu_keyboard));
        mret tt)
       Exception
       (_ ← do_call (query_edit_message_caption text_choose_payment
                       (Some payment_menu_keyboard));
        mret tt)).
  unfold final_state, trace_of, issued, acked.
  unfold_monad. cbn.
  destruct (env_raises env [_] _) eqn:Hread; cbn.
  - case_calls.
    all: split; [intros _; eexists; in_trace|].
    all: split; [intros [=]|done].
  - destruct (env_raises env [_; _] (query_edit_message_media _ _ _)) eqn:Hmedia;
      cbn.
    + case_calls.
      all: split; [intros _; eexists; in_trace|].
      all: split; [intros _ [=]|done].
    + split; [intros [H|H]; done|]. split; [done|done].
Qed.

Lemma payment_menu_fallback_witness :
  let read := aiofiles_read (photos "photo_payments.JPG") in
  let media := query_edit_message_media (Buffer (photos "photo_payments.JPG"))
                 text_choose_payment (Some payment_menu_keyboard) in
  let r := run (callback_query_handler cfg0 alice 5 (Some "siski_gopay"))
             env_no_files initial_state in
  (env_raises env_no_files [acked] read ≠ None
   ∨ env_raises env_no_files [acked; Called read None] media ≠ None →
   issued (query_edit_message_caption text_choose_payment
             (Some payment_menu_keyboard)) (trace_of r))
  ∧ (env_raises env_no_files [acked] read = None →
     env_raises env_no_files [acked; Called read None] media = None →
     trace_of r = [acked; Called read None; Called media None]
     ∧ fst r = Returned tt)
  ∧ current_inline_message (final_state r) = current_inline_message initial_state
  ∧ users_subs_list (final_state r) = users_subs_list initial_state.
Proof.
  apply (payment_menu_fallback cfg0 env_no_files initial_state alice 5).
  reflexivity.
Defined.

(** X13.  An image from a user who waits, when passing it on to the
    manager raises: the exception is logged, the sender is told that the
    forwarding failed and to try again, and the dictionaries are unchanged,
    so the sender still waits and the next image is passed on again. *)
Theorem receipt_forward_failure cfg env st u m ph e :
  user_id u ∈ users_waitingcryptocheck st →
  last (photo m) = Some ph →
  env_raises env [] (forward_call cfg u ph) = Some e →
  let r := run (photo_message_handler cfg u m) env st in
  (∃ o, trace_of r =
          [Called (forward_call cfg u ph) (Some e);
           LoggedException "Ошибка при пересылке чека";
           Called (message_reply_text text_forward_failed) o]
        ∧ fst r = match o with None => Returned tt | Some e' => Raised e' end)
  ∧ final_state r = st.
Proof.
  intros Hw Hlast Hfwd r. subst r.
  unfold photo_message_handler, run, final_state, trace_of.
  unfold_monad. cbn. rewrite (bool_decide_eq_true_2 _ Hw). cbn.
  rewrite Hlast. cbn. rewrite Hfwd. cbn.
  case_calls; eauto.
Qed.

Lemma receipt_forward_failure_witness :
  let ph := {| file_id := "large"; width := 800; height := 800 |} in
  let r := run (photo_message_handler cfg0 alice (image_message 5))
             env_send_photo_fails (waiting_state 5) in
  (∃ o, trace_of r =
          [Called (forward_call cfg0 alice ph) (Some TelegramError);
           LoggedException "Ошибка при пересылке чека";
           Called (message_reply_text text_forward_failed) o]
        ∧ fst r = match o with None => Returned tt | Some e' => Raised e' end)
  ∧ final_state r = waiting_state 5.
Proof.
  apply (receipt_forward_failure cfg0 env_send_photo_fails (waiting_state 5)
           alice (image_message 5)); first [reflexivity | compute_done].
Defined.

(** X14.  [successful_payment_handler] never lets an exception out: in
    every environment and state it returns, and it leaves the dictionaries
    either as they were or with the payer appended to the subscribers. *)
Theorem payment_handler_never_raises cfg env st u chat :
  let r := run (successful_payment_handler cfg u chat) env st in
  fst r = Returned tt
  ∧ (final_state r = st ∨ final_state r = subs_append (user_id u) st).
Proof.
  intros r. subst r.
  unfold successful_payment_handler, run, final_state.
  unfold_monad. cbn. case_calls; try (split; [done | by left]).
  all: destruct (users_query st !! user_id u) as [sq|]; cbn;
       [destruct (sq_truthy sq && sq_has_edit_message_caption sq); cbn|];
       case_calls; (split; [done | by right]).
Qed.

(** X15.  A message that opens with a command other than [/start], and is
    not a payment confirmation, is given to no handler: no call is made,
    nothing is logged, the dictionaries are unchanged. *)
Theorem other_commands_are_dropped cfg env st u chat_id m c :
  bot_command m = Some c →
  c ≠ "start" →
  successful_payment m = false →
  run (process_update cfg (MessageUpdate u chat_id m)) env st
  = (Returned tt, {| w_state := st; w_trace := [] |}).
Proof.
  intros Hc Hne Hpay. rewrite process_update_message, Hc, Hpay.
  rewrite bool_decide_eq_false_2 by congruence.
  rewrite (bool_decide_eq_true_2 (is_Some (Some c))) by eauto.
  cbn [negb andb]. rewrite andb_false_r. reflexivity.
Qed.

Lemma other_commands_are_dropped_witness :
  run (process_update cfg0 (MessageUpdate alice 5 (help_message 5))) env_ok
    (waiting_state 5)
  = (Returned tt, {| w_state := waiting_state 5; w_trace := [] |}).
Proof.
  apply (other_commands_are_dropped cfg0 env_ok (waiting_state 5) alice 5
           (help_message 5) "help"); first [reflexivity | discriminate].
Defined.

(** X16.  A delivery touches, of [users_waitingcryptocheck] and
    [current_inline_message], only the entries of the user it comes from:
    for every other user the wait and the saved message are as before. *)
Theorem other_users_entries_kept cfg env st upd v :
  v ≠ acting_user upd →
  entries_kept v st (step cfg env st upd).
Proof.
  intros Hne. unfold step, final_state, run.
  apply (process_update_respects_acting (entries_kept v) cfg upd).
  - intros s. split; [|reflexivity]. cbn.
    rewrite elem_of_difference, elem_of_singleton. tauto.
  - intros s. split; [|reflexivity]. cbn.
    rewrite elem_of_union, elem_of_singleton. tauto.
  - intros s m. split; [reflexivity|]. cbn. by apply lookup_insert_ne.
  - intros s n. split; reflexivity.
Qed.

Lemma other_users_entries_kept_witness :
  entries_kept 7 (waiting_state 7)
    (step cfg0 env_ok (waiting_state 7)
       (CallbackQueryUpdate alice 5 (Some "siski_gopay"))).
Proof.
  apply (other_users_entries_kept cfg0 env_ok (waiting_state 7)
           (CallbackQueryUpdate alice 5 (Some "siski_gopay")) 7).
  discriminate.
Defined.

(** X17.  The list of subscribers is append-only: after any delivery the
    list before is a prefix of the list after, so who is a subscriber stays
    one. *)
Theorem subscribers_append_only cfg env st upd :
  users_subs_list st `prefix_of` users_subs_list (step cfg env st upd)
  ∧ ∀ x, x ∈ users_subs_list st → x ∈ users_subs_list (step cfg env st upd).
Proof.
  assert (H : users_subs_list st `prefix_of` users_subs_list (step cfg env st upd))
    by apply step_subscribers_extended.
  split; [exact H|]. intros x Hx. destruct H as [k ->].
  apply elem_of_app. by left.
Qed.

(** X18.  Nothing ever writes [users_query]: it is empty in every state
    the process can be in. *)
Theorem users_query_never_written cfg st :
  reachable cfg st → users_query st = ∅.
Proof. apply reachable_users_query_empty. Qed.

Lemma users_query_never_written_witness :
  users_query state_after_checkout = ∅.
Proof.
  apply (users_query_never_written cfg0).
  do 2 apply reachable_step. apply reachable_initial.
Defined.

(** X19.  Of the button presses, only [siski_gocryptopayagain] can save a
    message: any other press leaves [current_inline_message] as it was, so
    a user without a saved message still has none after pressing
    [start], [siski_gopay] or [siski_gostarpay]. *)
Theorem only_retry_saves_a_message cfg env st u chat qd :
  String.eqb (default "" qd) "siski_gocryptopayagain" = false →
  current_inline_message
    (final_state (run (callback_query_handler cfg u chat qd) env st))
  = current_inline_message st.
Proof.
  intros Hne. unfold final_state, run.
  cut (respects same_inline_messages (callback_query_handler cfg u chat qd));
    [intros H; apply H|].
  unfold callback_query_handler, clear_stale_waiting, route_callback.
  rewrite Hne.
  unfold admin_callback, gostarpay_callback, start_handler. cbv beta iota.
  respects_auto; reflexivity.
Qed.

Lemma only_retry_saves_a_message_witness :
  current_inline_message
    (final_state (run (callback_query_handler cfg0 alice 5 (Some "start"))
                    env_ok initial_state))
  = current_inline_message initial_state.
Proof.
  apply (only_retry_saves_a_message cfg0 env_ok initial_state alice 5
           (Some "start")).
  reflexivity.
Defined.

(** X20.  The three steps of the payment by transfer fit together, for a
    user whose id fits in 64 bits.  After the user's press of
    [siski_checkcryptopay] whose edit returned, an image from that user is
    sent to the manager's chat by its file id, with a keyboard; and the
    token of the first button of that keyboard, pressed by the manager in
    any later state, appends exactly that user to the subscribers: the id
    written into the token by [photo_message_handler] is the id read back
    by [callback_query_handler]. *)
Theorem receipt_flow_reaches_subscription cfg env1 env2 env3 st st3 u chat m ph
    operator chat3 :
  (Z.abs (user_id u) < 2 ^ 63)%Z →
  acknowledged env1 →
  env_raises env1 [acked] ask_receipt_call = None →
  last (photo m) = Some ph →
  user_id operator ∈ admin_ids cfg →
  acknowledged env3 →
  let st1 := final_state
               (run (callback_query_handler cfg u chat
                       (Some "siski_checkcryptopay")) env1 st) in
  let r2 := run (photo_message_handler cfg u m) env2 st1 in
  ∃ caption label data rest,
    issued (bot_send_photo (MANAGER_ID cfg) (FileId (file_id ph)) caption
              (Some ([CallbackButton label data] :: rest))) (trace_of r2)
    ∧ users_subs_list
        (final_state (run (callback_query_handler cfg operator chat3 (Some data))
                        env3 st3))
      = (users_subs_list st3 ++ [user_id u])%list.
Proof.
  intros Hid Hack1 Hedit Hlast Hadm Hack3 st1 r2. subst r2.
  eexists _, _, _, _. split.
  - assert (Hst1 : st1 = waiting_add (user_id u) st).
    { subst st1. rewrite callback_run by done.
      change (after_clear u (default "" (Some "siski_checkcryptopay")) st) with st.
      change (route_callback cfg u chat _) with
        (_ ← do_call ask_receipt_call; modify (waiting_add (user_id u))).
      unfold final_state, acked, ask_receipt_call in *. unfold_monad. cbn.
      by rewrite Hedit. }
    rewrite Hst1.
    unfold photo_message_handler, run, trace_of, issued, forward_call,
      receipt_keyboard.
    unfold_monad. cbn.
    rewrite bool_decide_eq_true_2
      by (apply elem_of_union_l, elem_of_singleton; reflexivity).
    cbn. rewrite Hlast. cbn. case_calls; eexists; in_trace.
  - lazymatch goal with
    | |- context [Some ("admin_cryptopay_YES:" +:+ Py.str (user_id u))] =>
        exact (approve_button_grants cfg env3 st3 operator chat3 u
                 Hid Hadm Hack3)
    end.
Qed.

Lemma receipt_flow_reaches_subscription_witness :
  let ph := {| file_id := "large"; width := 800; height := 800 |} in
  let st1 := final_state
               (run (callback_query_handler cfg0 alice 5
                       (Some "siski_checkcryptopay")) env_ok initial_state) in
  let r2 := run (photo_message_handler cfg0 alice (image_message 5)) env_ok st1 in
  ∃ caption label data rest,
    issued (bot_send_photo (MANAGER_ID cfg0) (FileId (file_id ph)) caption
              (Some ([CallbackButton label data] :: rest))) (trace_of r2)
    ∧ users_subs_list
        (final_state (run (callback_query_handler cfg0 manager 1 (Some data))
                        env_ok initial_state))
      = (users_subs_list initial_state ++ [user_id alice])%list.
Proof.
  apply (receipt_flow_reaches_subscription cfg0 env_ok env_ok env_ok
           initial_state initial_state alice 5 (image_message 5));
    first [reflexivity | compute_done | (cbn; lia)].
Defined.

(** X21.  An edited image message (not a command, not a payment) is given
    to [photo_message_handler], where [update.message] is [None]: the
    handler raises [AttributeError] before any call, for a sender who waits
    and for one who does not; nothing is passed on to the manager and the
    dictionaries are unchanged. *)
Theorem edited_image_raises cfg env st u chat_id m :
  photo m ≠ [] →
  bot_command m = None →
  successful_payment m = false →
  run (process_update cfg (EditedMessageUpdate u chat_id m)) env st
  = (Raised AttributeError, {| w_state := st; w_trace := [] |}).
Proof.
  intros Hphoto Hcmd Hpay. rewrite process_update_edited, Hcmd, Hpay.
  rewrite (bool_decide_eq_false_2 (None = Some "start")) by discriminate.
  rewrite (bool_decide_eq_false_2 (photo m = [])) by done.
  rewrite (bool_decide_eq_false_2 (is_Some None)) by (intros [? [=]]).
  reflexivity.
Qed.

Lemma edited_image_raises_witness :
  run (process_update cfg0 (EditedMessageUpdate alice 5 (image_message 5)))
    env_ok (waiting_state 5)
  = (Raised AttributeError, {| w_state := waiting_state 5; w_trace := [] |}).
Proof.
  apply (edited_image_raises cfg0 env_ok (waiting_state 5) alice 5
           (image_message 5)); first [reflexivity | discriminate].
Defined.
